(** * incident_agent: the ReAct loop, its stopping rules and its summarizer

    A shallow embedding of [agent/react_agent.py], [agent/state.py] and the
    four tools under [tools/], followed by the properties of the loop.

    Python values that come out of [json.loads] are modelled by the type
    [json]; a Python exception is a value of [exn]; a method that mutates the
    [AgentState] object it was given is a computation in the monad [M], whose
    store is that object together with a log of the tool invocations made so
    far.  Calls to [print] produce no value and cannot fail, so they are left
    out; [_print_trace] is kept because it subscripts the tool result and may
    therefore raise. *)

From Stdlib Require Import ZArith QArith Lia Ascii String.
From stdpp Require Import base gmap sets list strings.

Local Open Scope string_scope.
Local Open Scope Z_scope.

(** ** Python values *)

(** A Python [float]: [json.loads] also accepts [NaN] and [Infinity]. *)
Inductive pyfloat :=
| Fnan
| Finf (negative : bool)
| Ffin (q : Q).

(** What [json.loads] builds: [None], [bool], [int], [float], [str], [list]
    and [dict] with string keys.  A [dict] is the list of its items in
    insertion order; [json.loads] never builds one with a repeated key. *)
#[local] Unset Elimination Schemes.
Inductive json :=
| JNull
| JBool (b : bool)
| JInt (z : Z)
| JFloat (f : pyfloat)
| JStr (s : string)
| JArr (l : list json)
| JObj (kv : list (string * json)).
#[local] Set Elimination Schemes.

Abbreviation dict := (list (string * json)).

Inductive exn :=
| ValueError_invalid_json (response : string)
    (* ValueError(f"Invalid JSON from model:\n{response}") *)
| ValueError_unknown_tool (tool_name : json)
    (* ValueError(f"Unknown tool requested by agent: {tool_name}") *)
| KeyError (key : string)
| TypeError
| AttributeError
| OracleError.
    (* whatever the chat-completion client raises *)

(** What evaluating an expression gives: a value or an exception. *)
Inductive outcome (A : Type) :=
| Ret (a : A)
| Raise (e : exn).
Arguments Ret {A} a.
Arguments Raise {A} e.

#[export] Instance outcome_ret : MRet outcome := λ A a, Ret a.

#[export] Instance outcome_bind : MBind outcome := λ A B k m,
  match m with
  | Ret a => k a
  | Raise e => Raise e
  end.

(** [bool(v)]. *)
Definition truthy (v : json) : bool :=
  match v with
  | JNull => false
  | JBool b => b
  | JInt z => negb (z =? 0)%Z
  | JFloat Fnan => true
  | JFloat (Finf _) => true
  | JFloat (Ffin q) => negb (Qeq_bool q 0)
  | JStr s => negb (String.eqb s "")
  | JArr l => match l with [] => false | _ => true end
  | JObj kv => match kv with [] => false | _ => true end
  end.

(** Lookup in a [dict]. *)
Fixpoint assoc {V} (k : string) (kv : list (string * V)) : option V :=
  match kv with
  | [] => None
  | (k', v) :: rest => if String.eqb k k' then Some v else assoc k rest
  end.

(** [d.get(k, default)] on a value that came out of [json.loads]: only a
    [dict] has the method. *)
Definition py_get (v : json) (k : string) (dflt : json) : outcome json :=
  match v with
  | JObj kv => Ret (default dflt (assoc k kv))
  | _ => Raise AttributeError
  end.

(** [d[k]] on a [dict]. *)
Definition dict_item (kv : dict) (k : string) : outcome json :=
  match assoc k kv with
  | Some x => Ret x
  | None => Raise (KeyError k)
  end.

(** [v[k]] with a string [k]: a [dict] is looked up, a [list] or a [str]
    wants an integer index, the rest is not subscriptable. *)
Definition subscript (v : json) (k : string) : outcome json :=
  match v with
  | JObj kv => dict_item kv k
  | _ => Raise TypeError
  end.

(** [v > n] for an [int] literal [n]. *)
Definition gt_int (v : json) (n : Z) : outcome bool :=
  match v with
  | JBool b => Ret ((if b then 1 else 0) >? n)%Z
  | JInt z => Ret (z >? n)%Z
  | JFloat Fnan => Ret false
  | JFloat (Finf negative) => Ret (negb negative)
  | JFloat (Ffin q) => Ret (negb (Qle_bool q (inject_Z n)))
  | _ => Raise TypeError
  end.

(** A Python [str] is a sequence of code points; a [string] here is the
    sequence of bytes of its UTF-8 encoding.  A byte [10xxxxxx] continues the
    code point that was begun before it. *)
Definition is_continuation (c : ascii) : bool :=
  match c with
  | Ascii _ _ _ _ _ _ b6 b7 => b7 && negb b6
  end.

(** Whether [s] begins in the middle of a code point. *)
Definition continues (s : string) : bool :=
  match s with
  | String c _ => is_continuation c
  | EmptyString => false
  end.

(** The one-character strings of [s], as [for c in s] yields them: one for
    each code point, so a first byte together with the bytes that continue
    it. *)
Fixpoint chars (s : string) : list string :=
  match s with
  | EmptyString => []
  | String c rest =>
      match chars rest with
      | following :: others =>
          if continues rest then String c following :: others
          else String c EmptyString :: following :: others
      | [] => [String c EmptyString]
      end
  end.

(** [iter(v)]. *)
Definition py_iter (v : json) : outcome (list json) :=
  match v with
  | JArr l => Ret l
  | JStr s => Ret (JStr <$> chars s)
  | JObj kv => Ret ((λ p, JStr p.1) <$> kv)
  | _ => Raise TypeError
  end.

(** Every element must be a [str]. *)
Fixpoint all_str (l : list json) : outcome (list string) :=
  match l with
  | [] => Ret []
  | JStr s :: rest => ss ← all_str rest; Ret (s :: ss)
  | _ :: _ => Raise TypeError
  end.

(** [sep.join(v)]. *)
Definition py_join (sep : string) (v : json) : outcome string :=
  items ← py_iter v;
  ss ← all_str items;
  Ret (String.concat sep ss).

(** [key in d] when the key is a string: hashable, so no error. *)
Definition has_key (k : string) (kv : dict) : bool :=
  match assoc k kv with Some _ => true | None => false end.

(** ** The tools, [tools/*.py]

    Each tool loads its data file and looks the service up.  The files are
    not part of the sources: the decoded content of each is a parameter, a
    [dict] from service name to record.  A file that cannot be read or does
    not hold a JSON object is outside the model. *)

(** [data.get(service)]: the key is hashed first. *)
Definition data_get (data : dict) (service : json) : outcome (option json) :=
  match service with
  | JStr s => Ret (assoc s data)
  | JArr _ | JObj _ => Raise TypeError
  | _ => Ret None
  end.

Definition check_metrics (data : dict) (service : json) : outcome dict :=
  r ← data_get data service;
  let metrics := default JNull r in
  if negb (truthy metrics) then
    Ret [("ok", JBool false); ("error", JStr "Service not found")]
  else
    Ret [("ok", JBool true); ("service", service); ("metrics", metrics)].

(** [[l for l in logs if l["level"] == "ERROR"]] *)
Fixpoint error_logs_of (logs : list json) : outcome (list json) :=
  match logs with
  | [] => Ret []
  | l :: rest =>
      level ← subscript l "level";
      tl ← error_logs_of rest;
      Ret (match level with
           | JStr s => if String.eqb s "ERROR" then l :: tl else tl
           | _ => tl
           end)
  end.

Definition check_logs (data : dict) (service : json) : outcome dict :=
  r ← data_get data service;
  let logs := default (JArr []) r in
  items ← py_iter logs;
  error_logs ← error_logs_of items;
  Ret [("ok", JBool true);
       ("service", service);
       ("error_count", JInt (Z.of_nat (length error_logs)));
       ("recent_errors", JArr (take 3 error_logs))].

Definition check_deployments (data : dict) (service : json) : outcome dict :=
  r ← data_get data service;
  let deployment := default JNull r in
  if negb (truthy deployment) then
    Ret [("ok", JBool false); ("error", JStr "No deployment info")]
  else
    Ret [("ok", JBool true); ("service", service); ("deployment", deployment)].

(** [[name for name, status in health.items() if status != "healthy"]] *)
Definition degraded_of (health : dict) : list json :=
  (λ p, JStr p.1) <$>
    List.filter (λ p, match p.2 with
                      | JStr s => negb (String.eqb s "healthy")
                      | _ => true
                      end) health.

Definition check_dependencies (data : dict) (service : json) : outcome dict :=
  r ← data_get data service;
  let deps := default JNull r in
  if negb (truthy deps) then
    Ret [("ok", JBool false); ("error", JStr "No dependency data")]
  else
    health ← subscript deps "dependency_health";
    degraded ←
      match health with
      | JObj h => Ret (degraded_of h)
      | _ => Raise AttributeError
      end;
    depends_on ← subscript deps "depends_on";
    Ret [("ok", JBool true);
         ("service", service);
         ("dependencies", depends_on);
         ("degraded_dependencies", JArr degraded)].

(** ** The run state, [agent/state.py] *)

(** One entry of [state.observations], the [dict] that [run] appends.  The
    tool name is a key of the registry, so a [str]; [args] was passed as
    [**args] and the result comes from a tool, so both are [dict]s. *)
Record Observation := {
  step : Z;
  thought : json;
  tool : string;
  args : dict;
  result : dict;
}.

(** [conclusion: str | None]; the field holds whatever is assigned to it,
    [JNull] standing for [None]. *)
Record AgentState := {
  goal : string;
  service : string;
  observations : list Observation;
  steps : Z;
  done : bool;
  conclusion : json;
}.

(** [AgentState(goal=..., service=...)] with the defaults of the dataclass. *)
Definition new_state (g s : string) : AgentState :=
  {| goal := g; service := s; observations := []; steps := 0;
     done := false; conclusion := JNull |}.

Definition set_done (b : bool) (st : AgentState) : AgentState :=
  {| goal := goal st; service := service st;
     observations := observations st; steps := steps st;
     done := b; conclusion := conclusion st |}.

Definition set_conclusion (c : json) (st : AgentState) : AgentState :=
  {| goal := goal st; service := service st;
     observations := observations st; steps := steps st;
     done := done st; conclusion := c |}.

Definition append_observation (o : Observation) (st : AgentState) : AgentState :=
  {| goal := goal st; service := service st;
     observations := (observations st ++ [o])%list; steps := steps st;
     done := done st; conclusion := conclusion st |}.

Definition incr_steps (st : AgentState) : AgentState :=
  {| goal := goal st; service := service st;
     observations := observations st; steps := steps st + 1;
     done := done st; conclusion := conclusion st |}.

(** ** The store and its monad *)

(** One execution of a tool: [tool_fn(service=...)]. *)
Record Call := {
  called : string;
  with_service : json;
}.

(** [run] mutates the state object it is given: the store is that object,
    and, as a ghost, the tool executions so far in order.  The store is what
    the caller still holds when an exception propagates.  A computation gives
    [None] only when the model of the [while] loop was given too little fuel;
    [run] always gives enough, see [run_store_total]. *)
Record Store := {
  state : AgentState;
  invoked : list Call;
}.

Definition M (A : Type) : Type := Store → option (Store * outcome A).

#[export] Instance M_ret : MRet M := λ A a s, Some (s, Ret a).

#[export] Instance M_bind : MBind M := λ A B k m s,
  match m s with
  | Some (s', Ret a) => k a s'
  | Some (s', Raise e) => Some (s', Raise e)
  | None => None
  end.

Definition lift {A} (r : outcome A) : M A := λ s, Some (s, r).

Definition get_state : M AgentState := λ s, Some (s, Ret (state s)).

Definition modify (f : AgentState → AgentState) : M unit :=
  λ s, Some ({| state := f (state s); invoked := invoked s |}, Ret tt).

Definition record_call (c : Call) : M unit :=
  λ s, Some ({| state := state s; invoked := (invoked s ++ [c])%list |}, Ret tt).

(** How one pass through the body of the [while] ends. *)
Inductive flow := Next | Break.

(** ** The evidence policy and the summarizer *)

(** [{obs["tool"] for obs in observations}] *)
Definition tools_used (obs : list Observation) : gset string :=
  list_to_set (tool <$> obs).

Definition _enough_evidence (obs : list Observation) : bool :=
  bool_decide ("check_metrics" ∈ tools_used obs) &&
  bool_decide ("check_logs" ∈ tools_used obs) &&
  bool_decide (3 ≤ size (tools_used obs))%nat.

(** The body of the [for] loop of [_summarize]: what one observation appends
    to [summary]. *)
Definition summarize_obs (summary : list string) (o : Observation)
  : outcome (list string) :=
  if String.eqb (tool o) "check_metrics" then
    metrics ← dict_item (result o) "metrics";
    cpu ← subscript metrics "cpu_percent";
    high_cpu ← gt_int cpu 80;
    let summary :=
      if (high_cpu : bool) then (summary ++ ["High CPU usage detected."])%list else summary in
    latency ← subscript metrics "latency_ms";
    high_latency ← gt_int latency 500;
    Ret (if (high_latency : bool)
         then (summary ++ ["High service latency observed."])%list else summary)
  else if String.eqb (tool o) "check_logs" then
    error_count ← dict_item (result o) "error_count";
    errors ← gt_int error_count 0;
    Ret (if (errors : bool)
         then (summary ++ ["Application errors found in logs."])%list else summary)
  else if String.eqb (tool o) "check_deployments" then
    Ret ((summary ++ ["Recent deployment detected."])%list)
  else if String.eqb (tool o) "check_dependencies" then
    degraded ← dict_item (result o) "degraded_dependencies";
    if truthy degraded then
      names ← py_join ", " degraded;
      Ret (summary ++ [("Degraded dependency: " ++ names)%string])%list
    else Ret summary
  else Ret summary.

Fixpoint summarize_loop (summary : list string) (obs : list Observation)
  : outcome (list string) :=
  match obs with
  | [] => Ret summary
  | o :: rest =>
      summary' ← summarize_obs summary o;
      summarize_loop summary' rest
  end.

Definition _summarize (st : AgentState) : outcome string :=
  summary ← summarize_loop [] (observations st);
  Ret ("Likely root cause: " ++ String.concat " " summary)%string.

(** [_print_trace]: only what can raise is modelled, the printed text is
    dropped. *)
Definition _print_trace (step_data : Observation) : outcome unit :=
  let result := result step_data in
  if has_key "metrics" result then
    m ← dict_item result "metrics";
    subscript m "cpu_percent";;
    subscript m "latency_ms";;
    Ret tt
  else if has_key "error_count" result then
    dict_item result "error_count";;
    Ret tt
  else if has_key "degraded_dependencies" result then
    degraded ← dict_item result "degraded_dependencies";
    if truthy degraded then
      py_join ", " degraded;;
      Ret tt
    else Ret tt
  else if has_key "deployment" result then
    deployment ← dict_item result "deployment";
    subscript deployment "version";;
    Ret tt
  else Ret tt.

(** ** Vocabulary of the further properties *)

(** A log entry [check_logs] can read: an object with a [level]. *)
Definition has_level (entry : json) : Prop :=
  ∃ kv lvl, entry = JObj kv ∧ assoc "level" kv = Some lvl.

(** [l["level"] == "ERROR"] for an entry that has a level. *)
Definition level_is_error (entry : json) : bool :=
  match entry with
  | JObj kv =>
      match assoc "level" kv with
      | Some (JStr s) => String.eqb s "ERROR"
      | _ => false
      end
  | _ => false
  end.

(** The record every tool but [check_logs] returns for a service it has no
    data for. *)
Definition not_found (message : string) : dict :=
  [("ok", JBool false); ("error", JStr message)].

(** The default of [decision.get("conclusion", ...)]. *)
Definition placeholder : string := "Incident analysis completed by agent.".

(** ** Sample inputs

    Texts an oracle may answer, with what [json.loads] makes of each, and
    data files; the examples further down run the agent on them. *)

Definition dquote : string := String "034"%char "".

(** A JSON string literal without escapes. *)
Definition quoted (s : string) : string := (dquote ++ s ++ dquote)%string.

(** [{}] *)
Definition raw_empty_object : string := "{}".

(** [{"done": true, "conclusion": ""}] *)
Definition raw_finish_empty : string :=
  ("{" ++ quoted "done" ++ ": true, " ++ quoted "conclusion" ++ ": "
       ++ quoted "" ++ "}")%string.

(** [{"done": true, "conclusion": 5}] *)
Definition raw_finish_number : string :=
  ("{" ++ quoted "done" ++ ": true, " ++ quoted "conclusion" ++ ": 5}")%string.

(** [{"done": true, "conclusion": "Payments API is degraded."}] *)
Definition raw_finish_text : string :=
  ("{" ++ quoted "done" ++ ": true, " ++ quoted "conclusion" ++ ": "
       ++ quoted "Payments API is degraded." ++ "}")%string.

(** [{"thought": "look", "action": {"tool": t, "args": {"service":
    "checkout-service"}}, "done": false}] *)
Definition raw_continue (t : string) : string :=
  ("{" ++ quoted "thought" ++ ": " ++ quoted "look" ++ ", "
       ++ quoted "action" ++ ": {" ++ quoted "tool" ++ ": " ++ quoted t ++ ", "
       ++ quoted "args" ++ ": {" ++ quoted "service" ++ ": "
       ++ quoted "checkout-service" ++ "}}, "
       ++ quoted "done" ++ ": false}")%string.

Definition continue_value (t : string) : json :=
  JObj [("thought", JStr "look");
        ("action", JObj [("tool", JStr t);
                         ("args", JObj [("service", JStr "checkout-service")])]);
        ("done", JBool false)].

(** Not JSON at all. *)
Definition raw_prose : string := "I would look at the metrics first.".

(** [json.loads] on the texts above; any other text is outside the table
    and counts as undecodable. *)
Definition sample_loads (text : string) : option json :=
  if String.eqb text raw_empty_object then Some (JObj [])
  else if String.eqb text raw_finish_empty then
    Some (JObj [("done", JBool true); ("conclusion", JStr "")])
  else if String.eqb text raw_finish_number then
    Some (JObj [("done", JBool true); ("conclusion", JInt 5)])
  else if String.eqb text raw_finish_text then
    Some (JObj [("done", JBool true);
                ("conclusion", JStr "Payments API is degraded.")])
  else if String.eqb text (raw_continue "check_metrics") then
    Some (continue_value "check_metrics")
  else if String.eqb text (raw_continue "restart_service") then
    Some (continue_value "restart_service")
  else None.

(** An oracle that gives the same answer whatever it is shown. *)
Definition always (text : string) : AgentState → exn + string :=
  λ _, inr text.

(** [metrics.json] with one service. *)
Definition sample_metrics : dict :=
  [("checkout-service",
    JObj [("cpu_percent", JInt 95); ("latency_ms", JInt 200)])].

Definition fresh_store : Store :=
  {| state := new_state "Service latency is high" "checkout-service";
     invoked := [] |}.

(** What the loop appends, executes and leaves behind when it runs
    [check_metrics] on [sample_metrics] for the [n]th time. *)
Definition metrics_observation (n : Z) : Observation :=
  {| step := n;
     thought := JStr "look";
     tool := "check_metrics";
     args := [("service", JStr "checkout-service")];
     result := [("ok", JBool true);
                ("service", JStr "checkout-service");
                ("metrics",
                 JObj [("cpu_percent", JInt 95); ("latency_ms", JInt 200)])] |}.

Definition metrics_call : Call :=
  {| called := "check_metrics"; with_service := JStr "checkout-service" |}.

Definition metrics_store (n : nat) : Store :=
  {| state :=
       {| goal := "Service latency is high";
          service := "checkout-service";
          observations := metrics_observation <$> (Z.of_nat <$> seq 1 n);
          steps := Z.of_nat n;
          done := false;
          conclusion := JNull |};
     invoked := replicate n metrics_call |}.

(** What [check_metrics] leaves in the history for a service that
    [metrics.json] does not know. *)
Definition metrics_not_found (n : Z) : Observation :=
  {| step := n;
     thought := JStr "look";
     tool := "check_metrics";
     args := [("service", JStr "checkout-service")];
     result := [("ok", JBool false); ("error", JStr "Service not found")] |}.

(** The store after one pass that asked [check_metrics] about a service
    [metrics.json] does not know. *)
Definition not_found_store : Store :=
  {| state :=
       {| goal := "Service latency is high";
          service := "checkout-service";
          observations := [metrics_not_found 1];
          steps := 1;
          done := false;
          conclusion := JNull |};
     invoked := [metrics_call] |}.

(** The state a run returns from [s] with conclusion [c] and [done] as
    given. *)
Definition returned (s : Store) (finished : bool) (c : json) : Store :=
  {| state := set_conclusion c (set_done finished (state s));
     invoked := invoked s |}.

(** A history of one [check_dependencies] result with one degraded
    dependency. *)
Definition degraded_history : AgentState :=
  {| goal := "Service latency is high";
     service := "checkout-service";
     observations :=
       [{| step := 1;
           thought := JNull;
           tool := "check_dependencies";
           args := [("service", JStr "checkout-service")];
           result := [("ok", JBool true);
                      ("service", JStr "checkout-service");
                      ("dependencies", JArr [JStr "payments-api"]);
                      ("degraded_dependencies", JArr [JStr "payments-api"])] |}];
     steps := 1;
     done := false;
     conclusion := JNull |}.

(** [logs.json] with one service, which is not the one asked for. *)
Definition sample_logs : dict :=
  [("payments-api",
    JArr [JObj [("level", JStr "ERROR"); ("message", JStr "timeout")]])].

(** The items of [continue_value t]. *)
Definition continue_fields (t : string) : dict :=
  [("thought", JStr "look");
   ("action", JObj [("tool", JStr t);
                    ("args", JObj [("service", JStr "checkout-service")])]);
   ("done", JBool false)].

(** [{"action": {"tool": "check_metrics"}, "done": false}]: a tool, but no
    arguments. *)
Definition raw_no_args : string :=
  ("{" ++ quoted "action" ++ ": {" ++ quoted "tool" ++ ": "
       ++ quoted "check_metrics" ++ "}, " ++ quoted "done" ++ ": false}")%string.

Definition no_args_fields : dict :=
  [("action", JObj [("tool", JStr "check_metrics")]); ("done", JBool false)].

(** [{"action": {"args": {"service": "checkout-service"}}, "done": false}]:
    arguments, but no tool. *)
Definition raw_no_tool : string :=
  ("{" ++ quoted "action" ++ ": {" ++ quoted "args" ++ ": {"
       ++ quoted "service" ++ ": " ++ quoted "checkout-service" ++ "}}, "
       ++ quoted "done" ++ ": false}")%string.

Definition no_tool_fields : dict :=
  [("action", JObj [("args", JObj [("service", JStr "checkout-service")])]);
   ("done", JBool false)].

(** [{"action": "check_metrics", "done": false}]: the action is a text. *)
Definition raw_text_action : string :=
  ("{" ++ quoted "action" ++ ": " ++ quoted "check_metrics" ++ ", "
       ++ quoted "done" ++ ": false}")%string.

Definition text_action_fields : dict :=
  [("action", JStr "check_metrics"); ("done", JBool false)].

(** JSON, but a list. *)
Definition raw_list : string := "[]".

(** [json.loads] on some more texts. *)
Definition loads_more (text : string) : option json :=
  if String.eqb text raw_no_args then Some (JObj no_args_fields)
  else if String.eqb text raw_no_tool then Some (JObj no_tool_fields)
  else if String.eqb text raw_text_action then Some (JObj text_action_fields)
  else if String.eqb text raw_list then Some (JArr [])
  else if String.eqb text (raw_continue "check_logs") then
    Some (continue_value "check_logs")
  else sample_loads text.

(** An oracle whose client raises. *)
Definition failing_oracle : AgentState → exn + string :=
  λ _, inl OracleError.

(** One entry of [logs.json]. *)
Definition log_entry (level message : string) : json :=
  JObj [("level", JStr level); ("message", JStr message)].

Definition checkout_entries : list json :=
  [log_entry "ERROR" "payment timeout";
   log_entry "INFO" "request served";
   log_entry "ERROR" "connection reset";
   log_entry "ERROR" "retry budget spent";
   log_entry "ERROR" "circuit open"].

(** [logs.json] with five entries for the service, four of them errors. *)
Definition checkout_logs : dict :=
  [("checkout-service", JArr checkout_entries)].

(** What [check_logs] returns on [checkout_logs]. *)
Definition logs_result : dict :=
  [("ok", JBool true);
   ("service", JStr "checkout-service");
   ("error_count", JInt 4);
   ("recent_errors",
    JArr [log_entry "ERROR" "payment timeout";
          log_entry "ERROR" "connection reset";
          log_entry "ERROR" "retry budget spent"])].

(** [logs.json] whose second entry has no level. *)
Definition broken_logs : dict :=
  [("checkout-service",
    JArr [log_entry "ERROR" "payment timeout";
          JObj [("message", JStr "heartbeat")];
          log_entry "INFO" "request served"])].

(** A data file that knows the service but holds an empty record for it. *)
Definition empty_record : dict := [("checkout-service", JObj [])].

(** [metrics.json] whose record has no [cpu_percent]. *)
Definition metrics_without_cpu : dict :=
  [("checkout-service", JObj [("latency_ms", JInt 200)])].

(** [deployments.json] with one service. *)
Definition sample_deployments : dict :=
  [("checkout-service",
    JObj [("version", JStr "v2.3.1"); ("deployed_minutes_ago", JInt 12)])].

Definition deployments_result : dict :=
  [("ok", JBool true);
   ("service", JStr "checkout-service");
   ("deployment",
    JObj [("version", JStr "v2.3.1"); ("deployed_minutes_ago", JInt 12)])].

Definition sample_health : dict :=
  [("payments-api", JStr "degraded"); ("inventory-db", JStr "healthy");
   ("pricing-cache", JStr "down")].

(** [dependencies.json] with one service, two of whose three dependencies
    are not healthy. *)
Definition sample_dependencies : dict :=
  [("checkout-service",
    JObj [("depends_on",
           JArr [JStr "payments-api"; JStr "inventory-db";
                 JStr "pricing-cache"]);
          ("dependency_health", JObj sample_health)])].

Definition dependencies_result : dict :=
  [("ok", JBool true);
   ("service", JStr "checkout-service");
   ("dependencies",
    JArr [JStr "payments-api"; JStr "inventory-db"; JStr "pricing-cache"]);
   ("degraded_dependencies", JArr [JStr "payments-api"; JStr "pricing-cache"])].

(** [dependencies.json] whose record has no health table. *)
Definition dependencies_without_health : dict :=
  [("checkout-service", JObj [("depends_on", JArr [JStr "payments-api"])])].

(** The observation the loop appends as the [n]th for a tool that returned
    [res]. *)
Definition observation_from (n : Z) (name : string) (res : dict) : Observation :=
  {| step := n;
     thought := JStr "look";
     tool := name;
     args := [("service", JStr "checkout-service")];
     result := res |}.

(** The store after the logs and the deployments were checked. *)
Definition two_checks_store : Store :=
  {| state :=
       {| goal := "Service latency is high";
          service := "checkout-service";
          observations := [observation_from 1 "check_logs" logs_result;
                           observation_from 2 "check_deployments"
                             deployments_result];
          steps := 2;
          done := false;
          conclusion := JNull |};
     invoked := [{| called := "check_logs";
                    with_service := JStr "checkout-service" |};
                 {| called := "check_deployments";
                    with_service := JStr "checkout-service" |}] |}.

(** The history once the metrics were checked as well. *)
Definition three_checks : list Observation :=
  (observations (state two_checks_store) ++ [metrics_observation 3])%list.

(** [{"thought": "look", "action": {"tool": "check_metrics", "args":
    {"service": "payments-api"}}, "done": false}] *)
Definition raw_metrics_of_payments : string :=
  ("{" ++ quoted "thought" ++ ": " ++ quoted "look" ++ ", "
       ++ quoted "action" ++ ": {" ++ quoted "tool" ++ ": "
       ++ quoted "check_metrics" ++ ", "
       ++ quoted "args" ++ ": {" ++ quoted "service" ++ ": "
       ++ quoted "payments-api" ++ "}}, "
       ++ quoted "done" ++ ": false}")%string.

Definition metrics_of_payments_fields : dict :=
  [("thought", JStr "look");
   ("action", JObj [("tool", JStr "check_metrics");
                    ("args", JObj [("service", JStr "payments-api")])]);
   ("done", JBool false)].

(** [json.loads] on that text and on those of [sample_loads]. *)
Definition loads_two_services (text : string) : option json :=
  if String.eqb text raw_metrics_of_payments
  then Some (JObj metrics_of_payments_fields)
  else sample_loads text.

(** An oracle that asks for the metrics of the service first, and then for
    those of another one. *)
Definition metrics_then_payments : AgentState → exn + string :=
  λ st, inr (if steps st =? 0 then raw_continue "check_metrics"
             else raw_metrics_of_payments).

(** [metrics.json] that knows one service and gives its CPU load as a
    text. *)
Definition metrics_text_cpu : dict :=
  [("checkout-service",
    JObj [("cpu_percent", JStr "high"); ("latency_ms", JInt 200)])].

(** What the loop leaves after those two passes on [metrics_text_cpu]. *)
Definition text_cpu_observation : Observation :=
  observation_from 1 "check_metrics"
    [("ok", JBool true);
     ("service", JStr "checkout-service");
     ("metrics",
      JObj [("cpu_percent", JStr "high"); ("latency_ms", JInt 200)])].

Definition payments_not_found : Observation :=
  {| step := 2;
     thought := JStr "look";
     tool := "check_metrics";
     args := [("service", JStr "payments-api")];
     result := [("ok", JBool false); ("error", JStr "Service not found")] |}.

Definition text_cpu_store : Store :=
  {| state :=
       {| goal := "Service latency is high";
          service := "checkout-service";
          observations := [text_cpu_observation; payments_not_found];
          steps := 2;
          done := false;
          conclusion := JNull |};
     invoked := [metrics_call;
                 {| called := "check_metrics";
                    with_service := JStr "payments-api" |}] |}.

(** ** The agent, [agent/react_agent.py] *)

Section ReActAgent.

(** [json.loads]: [None] is [json.JSONDecodeError]. *)
Variable json_loads : string → option json.

(** [_reason]: the chat completion for the state it is shown, the text of
    the first choice or the exception of the client.  Within one run no two
    calls see the same state, so this covers every sequence of answers. *)
Variable _reason : AgentState → exn + string.

(** The decoded data files of the four tools. *)
Variable metrics_data logs_data deployments_data dependencies_data : dict.

Definition TOOLS : list (string * (json → outcome dict)) :=
  [("check_metrics", check_metrics metrics_data);
   ("check_logs", check_logs logs_data);
   ("check_deployments", check_deployments deployments_data);
   ("check_dependencies", check_dependencies dependencies_data)].

(** [TOOLS.get(tool_name)]: the key is hashed, then compared; only a [str]
    equals a key.  The name is returned with the function. *)
Definition TOOLS_get (tool_name : json)
  : outcome (option (string * (json → outcome dict))) :=
  match tool_name with
  | JStr name => Ret ((λ fn, (name, fn)) <$> assoc name TOOLS)
  | JArr _ | JObj _ => Raise TypeError
  | _ => Ret None
  end.

Definition _parse_response (response : string) : outcome json :=
  match json_loads response with
  | Some v => Ret v
  | None => Raise (ValueError_invalid_json response)
  end.

(** [tool_fn( **args )]: [args] must be a mapping that binds exactly the
    parameter [service]; only then is the tool executed. *)
Definition call_tool (name : string) (tool_fn : json → outcome dict)
    (args : json) : M (dict * dict) :=
  match args with
  | JObj [(k, v)] =>
      if String.eqb k "service" then
        record_call {| called := name; with_service := v |};;
        result ← lift (tool_fn v);
        mret ([(k, v)], result)
      else lift (Raise TypeError)
  | _ => lift (Raise TypeError)
  end.

(** The body of the [while] loop of [run]. *)
Definition iteration : M flow :=
  st ← get_state;
  response ← lift (match _reason st with
                   | inr text => Ret text
                   | inl e => Raise e
                   end);
  decision ← lift (_parse_response response);
  finished ← lift (py_get decision "done" JNull);
  if truthy finished then
    modify (set_done true);;
    c ← lift (py_get decision "conclusion" (JStr placeholder));
    modify (set_conclusion c);;
    mret Break
  else
    action ← lift (py_get decision "action" JNull);
    if negb (truthy action) then mret Break
    else
      tool_name ← lift (py_get action "tool" JNull);
      args ← lift (py_get action "args" (JObj []));
      tool_fn ← lift (TOOLS_get tool_name);
      match tool_fn with
      | None => lift (Raise (ValueError_unknown_tool tool_name))
      | Some (name, fn) =>
          '(args, result) ← call_tool name fn args;
          st ← get_state;
          th ← lift (py_get decision "thought" JNull);
          let o := {| step := steps st + 1; thought := th; tool := name;
                      args := args; result := result |} in
          modify (append_observation o);;
          modify incr_steps;;
          lift (_print_trace o);;
          st ← get_state;
          if _enough_evidence (observations st) then
            modify (set_done true);;
            st ← get_state;
            c ← lift (_summarize st);
            modify (set_conclusion (JStr c));;
            mret Break
          else mret Next
      end.

Definition loop_condition (max_steps : Z) (st : AgentState) : bool :=
  negb (done st) && (steps st <? max_steps)%Z.

(** [while not state.done and state.steps < max_steps: ...] *)
Fixpoint loop (fuel : nat) (max_steps : Z) : M unit :=
  λ s,
    if loop_condition max_steps (state s) then
      match fuel with
      | O => None
      | S fuel' =>
          (fl ← iteration;
           match fl with
           | Next => loop fuel' max_steps
           | Break => mret tt
           end) s
      end
    else Some (s, Ret tt).

(** The final fallback of [run], after the loop. *)
Definition fallback : M unit :=
  st ← get_state;
  if negb (truthy (conclusion st)) then
    c ← lift (_summarize st);
    modify (set_conclusion (JStr c))
  else mret tt.

(** [run] on the store; the state it returns is the store's.  Every pass
    that goes on to the next adds one to [steps], so the budget that is left
    is fuel enough. *)
Definition run_store (max_steps : Z) : M AgentState :=
  st ← get_state;
  loop (Z.to_nat (max_steps - steps st)) max_steps;;
  fallback;;
  get_state.

Definition run (st : AgentState) (max_steps : Z)
  : option (Store * outcome AgentState) :=
  run_store max_steps {| state := st; invoked := [] |}.

(** The stores at which the [while] condition is evaluated in the run that
    starts from [s0]: [s0] itself, and the store left by a pass that went on
    to the next. *)
Inductive loop_head (max_steps : Z) (s0 : Store) : Store → Prop :=
| head_first : loop_head max_steps s0 s0
| head_next s s' :
    loop_head max_steps s0 s →
    loop_condition max_steps (state s) = true →
    iteration s = Some (s', Ret Next) →
    loop_head max_steps s0 s'.

(** The stores left by a pass through the body, however it ended: on to the
    next pass, [break], or an exception. *)
Definition after_iteration (max_steps : Z) (s0 s' : Store) : Prop :=
  ∃ s r, loop_head max_steps s0 s ∧
         loop_condition max_steps (state s) = true ∧
         iteration s = Some (s', r).

(** What holds of the store whenever the condition of the [while] is read:
    one observation per counted step, and no more executions than steps. *)
Definition head_ok (s : Store) : Prop :=
  Z.of_nat (length (observations (state s))) = steps (state s) ∧
  Z.of_nat (length (invoked s)) ≤ steps (state s).

(** What the step budget promises of a store: at most [max_steps] tool
    executions so far, at most [max_steps] observations, and as many
    observations as counted steps. *)
Definition within_budget (max_steps : Z) (s : Store) : Prop :=
  Z.of_nat (length (invoked s)) ≤ max_steps ∧
  Z.of_nat (length (observations (state s))) ≤ max_steps ∧
  Z.of_nat (length (observations (state s))) = steps (state s).

(** The conclusion a finish decision carries: the value of its
    [conclusion], or the placeholder when it has none. *)
Definition supplied_by_oracle (c : json) : Prop :=
  ∃ st raw d,
    _reason st = inr raw ∧ json_loads raw = Some (JObj d) ∧
    truthy (default JNull (assoc "done" d)) = true ∧
    c = default (JStr placeholder) (assoc "conclusion" d).

(** A text the Summarizer returned. *)
Definition summary_text (c : json) : Prop :=
  ∃ st txt, _summarize st = Ret txt ∧ c = JStr txt.


(** A computation that gives a result from every store. *)
Definition total {A} (m : M A) : Prop := ∀ s, is_Some (m s).

(** The observations are numbered from 1 in the order they were made. *)
Definition numbered (obs : list Observation) : Prop :=
  ∀ i o, obs !! i = Some o → step o = Z.of_nat i + 1.

(** An observation that records an execution: its tool is a key of the
    registry, its arguments bind [service] and nothing else, and its result
    is what the tool returns for that value. *)
Definition records_execution (o : Observation) : Prop :=
  ∃ fn v, assoc (tool o) TOOLS = Some fn ∧
          args o = [("service", v)] ∧
          fn v = Ret (result o).

(** The execution an observation records. *)
Definition call_of (o : Observation) : Call :=
  {| called := tool o;
     with_service := default JNull (assoc "service" (args o)) |}.

(** What a run keeps true of the state it works on. *)
Definition history_ok (st : AgentState) : Prop :=
  numbered (observations st) ∧
  Forall records_execution (observations st) ∧
  Z.of_nat (length (observations st)) = steps st.

(** At store [s] the oracle answers the continue decision [d], which asks
    for the tool [name] of the registry, [fn], on the service [v]. *)
Definition decides_to_call (s : Store) (d : dict) (name : string)
    (fn : json → outcome dict) (v : json) : Prop :=
  ∃ raw action,
    _reason (state s) = inr raw ∧
    json_loads raw = Some (JObj d) ∧
    truthy (default JNull (assoc "done" d)) = false ∧
    assoc "action" d = Some (JObj action) ∧
    assoc "tool" action = Some (JStr name) ∧
    assoc name TOOLS = Some fn ∧
    assoc "args" action = Some (JObj [("service", v)]).

(** The observation a pass appends for that decision when the tool
    returned [res]. *)
Definition observation_of (s : Store) (d : dict) (name : string) (v : json)
    (res : dict) : Observation :=
  {| step := steps (state s) + 1;
     thought := default JNull (assoc "thought" d);
     tool := name;
     args := [("service", v)];
     result := res |}.

(** The store after the tool was executed, and after its observation was
    appended and counted. *)
Definition executed (s : Store) (name : string) (v : json) : Store :=
  {| state := state s;
     invoked := (invoked s ++ [{| called := name; with_service := v |}])%list |}.

Definition observed (s : Store) (o : Observation) : Store :=
  {| state := incr_steps (append_observation o (state s));
     invoked := (invoked s ++ [call_of o])%list |}.

(** ** One pass through the body *)

(** A sequence ends in a result either because its first part returned and
    the rest gave the result, or because its first part raised. *)
Lemma bind_inv {A B} (m : M A) (k : A → M B) s s' r :
  (m ≫= k) s = Some (s', r) →
  (∃ s1 a, m s = Some (s1, Ret a) ∧ k a s1 = Some (s', r)) ∨
  (∃ e, m s = Some (s', Raise e) ∧ r = Raise e).
Proof.
  unfold mbind, M_bind.
  destruct (m s) as [[s1 [a|e]]|]; intros; simplify_eq; eauto.
Qed.

Ltac inv_prim H :=
  unfold lift, get_state, modify, record_call, mret, M_ret in H; simplify_eq.

Ltac bind_step H :=
  let Hm := fresh "Hm" in
  apply bind_inv in H as [(? & ? & Hm & H)|(? & Hm & ->)];
  inv_prim Hm.

(** [tool_fn( **args )] either fails to bind its argument, and then nothing
    was executed, or executes the tool once on the value of [service]. *)
Lemma call_tool_effect name fn a s s' r :
  call_tool name fn a s = Some (s', r) →
  (s' = s ∧ ∃ e, r = Raise e) ∨
  ∃ v, a = JObj [("service", v)] ∧
       s' = {| state := state s;
               invoked := (invoked s ++ [{| called := name; with_service := v |}])%list |} ∧
       r = (res ← fn v; Ret ([("service", v)], res)).
Proof.
  unfold call_tool. intros H.
  destruct a as [| | | | |?|[|[k v] [|]]]; try (inv_prim H; eauto; fail).
  destruct (String.eqb_spec k "service") as [->|]; [|inv_prim H; eauto].
  right. exists v. split; [done|].
  bind_step H.
  bind_step H; [inv_prim H|]; destruct (fn v); simplify_eq/=; done.
Qed.

(** The ways one pass through the body can end: nothing changed (an
    exception before any tool, or the guardrail [break]); a finish decision;
    a tool that was executed and raised; a tool that was executed and whose
    result was appended and counted, after which the trace raised, the loop
    goes on, or the Evidence Policy stopped it. *)
Lemma iteration_cases s s' r :
  iteration s = Some (s', r) →
  (s' = s ∧
   ((r = Ret Break ∧
     ∃ raw d,
       _reason (state s) = inr raw ∧ json_loads raw = Some (JObj d) ∧
       truthy (default JNull (assoc "done" d)) = false ∧
       truthy (default JNull (assoc "action" d)) = false) ∨
    ∃ e, r = Raise e)) ∨
  (∃ raw d,
      _reason (state s) = inr raw ∧ json_loads raw = Some (JObj d) ∧
      truthy (default JNull (assoc "done" d)) = true ∧
      s' = {| state := set_conclusion
                         (default (JStr placeholder) (assoc "conclusion" d))
                         (set_done true (state s));
              invoked := invoked s |} ∧
      r = Ret Break) ∨
  (∃ c e, s' = {| state := state s; invoked := (invoked s ++ [c])%list |} ∧
          r = Raise e) ∨
  (∃ c o,
      let st1 := incr_steps (append_observation o (state s)) in
      invoked s' = (invoked s ++ [c])%list ∧
      step o = steps (state s) + 1 ∧ called c = tool o ∧
      ((state s' = st1 ∧ ∃ e, r = Raise e) ∨
       (state s' = st1 ∧ r = Ret Next ∧
        _enough_evidence (observations st1) = false) ∨
       (_enough_evidence (observations st1) = true ∧
        state s' = set_done true st1 ∧ ∃ e, r = Raise e) ∨
       (_enough_evidence (observations st1) = true ∧
        ∃ txt, _summarize (set_done true st1) = Ret txt ∧
               state s' = set_conclusion (JStr txt) (set_done true st1) ∧
               r = Ret Break))).
Proof.
  intros H. unfold iteration in H.
  bind_step H.
  bind_step H; [|left; eauto].
  bind_step H; [|left; eauto].
  bind_step H; [|left; eauto].
  match goal with H : context [_reason ?st] |- _ =>
    destruct (_reason st) eqn:Hraw; simplify_eq end.
  match goal with H : _parse_response ?x = _ |- _ =>
    unfold _parse_response in H;
    destruct (json_loads x) eqn:Hloads; simplify_eq end.
  match goal with H : py_get ?v "done" _ = _ |- _ =>
    destruct v as [| | | | | |d]; simplify_eq/= end.
  destruct (truthy _) eqn:Hdone.
  - (* explicit finish *)
    do 3 bind_step H. inv_prim H.
    right; left. eauto 10.
  - bind_step H.
    destruct (truthy (default JNull (assoc "action" _))) eqn:Haction;
      simpl in H; [|inv_prim H; left; eauto 10].
    bind_step H; [|left; eauto].
    bind_step H; [|left; eauto].
    bind_step H; [|left; eauto].
    match goal with H : context [match ?tf with Some _ => _ | None => _ end] |- _ =>
      destruct tf as [[name fn]|]; [|inv_prim H; left; eauto] end.
    apply bind_inv in H as [(s1 & [a res] & Hc & H)|(e & Hc & ->)];
      apply call_tool_effect in Hc as [[-> [e' ?]]|(v & -> & -> & Hres)];
      simplify_eq; [|left; eauto|].
    + destruct (fn v) as [res'|] eqn:Hfn; simplify_eq/=.
      do 2 bind_step H.
      match type of H with context [append_observation ?o] => pose (ob := o) end.
      do 2 bind_step H. simpl in H.
      right; right; right. exists {| called := name; with_service := v |}, ob.
      bind_step H; [|simpl; split_and!; [done..|left; eauto]].
      bind_step H. simpl in H.
      destruct (_enough_evidence _) eqn:Hev.
      * do 2 bind_step H. simpl in H.
        bind_step H; [|simpl; split_and!; [done..|right; right; left; eauto]].
        bind_step H. inv_prim H.
        simpl; split_and!; [done..|right; right; right; eauto].
      * inv_prim H. simpl; split_and!; [done..|right; left; eauto].
    + destruct (fn v) as [res'|] eqn:Hfn; simplify_eq/=.
      right; right; left. eauto.
Qed.

(** A pass that goes on to the next one has executed one tool, appended one
    observation and counted one step. *)
Lemma iteration_next s s' :
  iteration s = Some (s', Ret Next) →
  ∃ c o,
    s' = {| state := incr_steps (append_observation o (state s));
            invoked := (invoked s ++ [c])%list |} ∧
    step o = steps (state s) + 1 ∧ called c = tool o ∧
    _enough_evidence (observations (state s) ++ [o]) = false.
Proof.
  intros H. apply iteration_cases in H.
  destruct H as [[_ [[? _]|[? ?]]]|[(?&?&?&?&?&?&?)|[(?&?&?&?)|(c&o&Hi&?&?&H)]]];
    simplify_eq.
  destruct H as [(_&?&?)|[(Hs&_&?)|[(_&_&?&?)|(_&?&_&_&?)]]]; simplify_eq.
  exists c, o. destruct s' as [st' inv']; simpl in *. by subst.
Qed.

(** *** Every pass ends *)

Lemma total_bind {A B} (m : M A) (k : A → M B) :
  total m → (∀ a, total (k a)) → total (m ≫= k).
Proof.
  intros Hm Hk s. unfold mbind, M_bind.
  destruct (Hm s) as [[s1 [a|e]] ->]; [apply Hk|done].
Qed.

Lemma total_lift {A} (o : outcome A) : total (lift o).
Proof. by intros s. Qed.

Lemma total_ret {A} (a : A) : total (mret a : M A).
Proof. by intros s. Qed.

Lemma total_get_state : total get_state.
Proof. by intros s. Qed.

Lemma total_modify f : total (modify f).
Proof. by intros s. Qed.

Lemma total_record_call c : total (record_call c).
Proof. by intros s. Qed.

Create HintDb total discriminated.
#[local] Hint Resolve total_lift total_ret total_get_state total_modify
  total_record_call : total.

Ltac total_tac :=
  repeat first
    [ apply total_bind; [|intros]
    | progress auto with total
    | match goal with
      | |- total (if ?b then _ else _) => destruct b
      | |- total (match ?x with _ => _ end) => destruct x
      end ].

Lemma call_tool_total name fn a : total (call_tool name fn a).
Proof. unfold call_tool. total_tac. Qed.

Lemma iteration_total : total iteration.
Proof.
  unfold iteration. pose proof call_tool_total. total_tac.
Qed.

Lemma fallback_total : total fallback.
Proof. unfold fallback. total_tac. Qed.

(** With the rest of the budget as fuel the model of the loop does not run
    dry: a pass that goes on has counted a step. *)
Lemma loop_total fuel max_steps s :
  max_steps - steps (state s) ≤ Z.of_nat fuel →
  is_Some (loop fuel max_steps s).
Proof.
  revert s. induction fuel as [|fuel IH]; intros s Hfuel; simpl.
  - destruct (loop_condition _ _) eqn:Hc; [|done].
    unfold loop_condition in Hc. apply andb_prop in Hc as [_ Hc%Z.ltb_lt]. lia.
  - destruct (loop_condition _ _) eqn:Hc; [|done].
    unfold mbind, M_bind.
    destruct (iteration_total s) as [[s' [[]|e]] Hi]; rewrite Hi; [|done..].
    apply iteration_next in Hi as (c & o & -> & _). apply IH. simpl. lia.
Qed.

Lemma run_store_total max_steps : total (run_store max_steps).
Proof.
  intros s. unfold run_store, get_state, mbind at 1, M_bind at 1.
  unfold mbind at 1, M_bind at 1.
  destruct (loop_total (Z.to_nat (max_steps - steps (state s))) max_steps s)
    as [[s1 [[]|e]] ->]; [lia| |done].
  unfold mbind, M_bind.
  destruct (fallback_total s1) as [[s2 [[]|e]] ->]; done.
Qed.

(** ** The loop *)

Lemma loop_stop fuel max_steps s :
  loop_condition max_steps (state s) = false →
  loop fuel max_steps s = Some (s, Ret tt).
Proof. destruct fuel; simpl; intros ->; done. Qed.

Lemma loop_pass fuel max_steps s :
  loop_condition max_steps (state s) = true →
  loop (S fuel) max_steps s =
    match iteration s with
    | Some (s', Ret Next) => loop fuel max_steps s'
    | Some (s', Ret Break) => Some (s', Ret tt)
    | Some (s', Raise e) => Some (s', Raise e)
    | None => None
    end.
Proof.
  intros Hc. simpl. rewrite Hc. unfold mbind, M_bind.
  destruct (iteration s) as [[s' [[]|]]|]; done.
Qed.

Lemma loop_condition_true max_steps st :
  loop_condition max_steps st = true ↔ done st = false ∧ steps st < max_steps.
Proof.
  unfold loop_condition. rewrite andb_true_iff, negb_true_iff, Z.ltb_lt. done.
Qed.

Lemma budget_left max_steps st :
  loop_condition max_steps st = true →
  ∃ n, Z.to_nat (max_steps - steps st) = S n.
Proof.
  intros [_ ?]%loop_condition_true.
  exists (Z.to_nat (max_steps - steps st - 1)). lia.
Qed.

Lemma iteration_counts max_steps s s' r :
  head_ok s →
  loop_condition max_steps (state s) = true →
  iteration s = Some (s', r) →
  within_budget max_steps s' ∧ (r = Ret Next → head_ok s').
Proof.
  intros [Hobs Hinv] [_ Hlt]%loop_condition_true Hi.
  apply iteration_cases in Hi.
  destruct Hi as [[-> Hr]|[(?&?&?&?&?&->&->)|[(?&?&->&->)|(c&o&Hi&?&?&H)]]];
    unfold within_budget, head_ok; simpl.
  - split; [lia|]. by intros ->; destruct Hr as [[? _]|[? ?]].
  - split; [lia|done].
  - rewrite length_app; simpl. split; [lia|done].
  - rewrite Hi, length_app; simpl.
    destruct H as [(->&?&?)|[(->&?&?)|[(_&->&?&?)|(_&?&_&->&?)]]];
      simpl; rewrite length_app; simpl; (split; [lia|]); intros; simplify_eq; lia.
Qed.

Lemma loop_head_ok max_steps s0 s :
  head_ok s0 → loop_head max_steps s0 s → head_ok s.
Proof.
  intros H0. induction 1 as [|s s' _ IH Hc Hi]; [done|].
  by eapply iteration_counts.
Qed.

Lemma loop_counts fuel max_steps s s' r :
  head_ok s → steps (state s) ≤ max_steps →
  loop fuel max_steps s = Some (s', r) →
  within_budget max_steps s'.
Proof.
  revert s. induction fuel as [|fuel IH]; intros s Hs Hle.
  - simpl. destruct (loop_condition _ _); [done|].
    intros [= <- <-]. destruct Hs. unfold within_budget. lia.
  - destruct (loop_condition max_steps (state s)) eqn:Hc.
    + rewrite loop_pass by done.
      destruct (iteration s) as [[s1 r1]|] eqn:Hi; [|done].
      destruct (iteration_counts _ _ _ _ Hs Hc Hi) as [Hb Hn].
      destruct r1 as [[]|]; intros Hl; simplify_eq; [|done..].
      apply (IH s1); [auto| |done]. destruct Hb as (_&?&?). lia.
    + rewrite loop_stop by done.
      intros [= <- <-]. destruct Hs. unfold within_budget. lia.
Qed.

(** The fallback touches nothing but the conclusion. *)
Lemma fallback_cases s s' r :
  fallback s = Some (s', r) →
  (truthy (conclusion (state s)) = true ∧ s' = s ∧ r = Ret tt) ∨
  (truthy (conclusion (state s)) = false ∧
   ((∃ e, _summarize (state s) = Raise e ∧ s' = s ∧ r = Raise e) ∨
    (∃ txt, _summarize (state s) = Ret txt ∧
            s' = {| state := set_conclusion (JStr txt) (state s);
                    invoked := invoked s |} ∧
            r = Ret tt))).
Proof.
  unfold fallback. intros H. bind_step H.
  destruct (truthy _); simpl in H.
  - inv_prim H. by left.
  - right. split; [done|]. bind_step H; [|eauto]. inv_prim H. eauto.
Qed.

(** [run] is the loop, then the fallback, unless the loop raised. *)
Lemma run_store_cases max_steps s s' r :
  run_store max_steps s = Some (s', r) →
  ∃ s1 r1,
    loop (Z.to_nat (max_steps - steps (state s))) max_steps s = Some (s1, r1) ∧
    ((∃ e, r1 = Raise e ∧ s' = s1 ∧ r = Raise e) ∨
     (r1 = Ret tt ∧
      ∃ r2, fallback s1 = Some (s', r2) ∧
            ((∃ e, r2 = Raise e ∧ r = Raise e) ∨
             (r2 = Ret tt ∧ r = Ret (state s'))))).
Proof.
  unfold run_store. intros H. bind_step H.
  apply bind_inv in H as [(s1 & [] & Hl & H)|(e & Hl & ->)]; [|eauto 10].
  exists s1, (Ret tt). split; [done|]. right. split; [done|].
  apply bind_inv in H as [(s2 & [] & Hf & H)|(e & Hf & ->)]; [|eauto 10].
  inv_prim H. eauto 10.
Qed.

Lemma run_store_counts max_steps s s' r :
  head_ok s → steps (state s) ≤ max_steps →
  run_store max_steps s = Some (s', r) →
  within_budget max_steps s'.
Proof.
  intros Hs Hle (s1 & r1 & Hl & H)%run_store_cases.
  apply loop_counts in Hl; [|done..].
  destruct H as [(?&_&->&_)|(_&r2&Hf&_)]; [done|].
  apply fallback_cases in Hf as [(_&->&_)|(_&[(?&_&->&_)|(?&_&->&_)])]; done.
Qed.

(** ** Properties of the loop *)

(** C2.  A run that starts from a state as the dataclass constructs it,
    with a step budget [max_steps ≥ 0] and whatever the oracle answers:
    whenever the condition of the loop is evaluated, after every pass
    through the body of the loop, however the pass ended, and in the store
    the run leaves behind, at most [max_steps] tools have been executed,
    there are at most [max_steps] observations, and there are as many
    observations as counted steps. *)
Theorem step_budget_respected (g sv : string) (max_steps : Z) :
  0 ≤ max_steps →
  let s0 := {| state := new_state g sv; invoked := [] |} in
  (∀ s, loop_head max_steps s0 s → within_budget max_steps s) ∧
  (∀ s', after_iteration max_steps s0 s' → within_budget max_steps s') ∧
  (∃ s' r, run (new_state g sv) max_steps = Some (s', r) ∧
           within_budget max_steps s').
Proof.
  intros Hmax s0.
  assert (H0 : head_ok s0) by (by split).
  assert (Hafter : ∀ s', after_iteration max_steps s0 s' →
                         within_budget max_steps s').
  { intros s' (s & r & Hs & Hc & Hi).
    destruct (iteration_counts max_steps s s' r) as [? _];
      eauto using loop_head_ok. }
  split_and!; [|done|].
  - intros s Hs. inversion Hs as [|s1 s2 Hs1 Hc Hi]; subst.
    + unfold within_budget, s0. simpl. lia.
    + apply Hafter. by exists s1, (Ret Next).
  - destruct (run_store_total max_steps s0) as [[s' r] Hrun].
    exists s', r. split; [done|].
    eapply run_store_counts; eauto.
Qed.

(** *** Running one pass forward *)

Lemma bind_ret {A B} (m : M A) (k : A → M B) s s1 a :
  m s = Some (s1, Ret a) → (m ≫= k) s = k a s1.
Proof. unfold mbind, M_bind. by intros ->. Qed.

Lemma bind_raise {A B} (m : M A) (k : A → M B) s s1 e :
  m s = Some (s1, Raise e) → (m ≫= k) s = Some (s1, Raise e).
Proof. unfold mbind, M_bind. by intros ->. Qed.

(** Up to the test of the [done] flag. *)
Lemma iteration_decoded s raw d :
  _reason (state s) = inr raw →
  json_loads raw = Some (JObj d) →
  iteration s =
    (if truthy (default JNull (assoc "done" d)) then
       modify (set_done true);;
       c ← lift (py_get (JObj d) "conclusion" (JStr placeholder));
       modify (set_conclusion c);;
       mret Break
     else
       action ← lift (py_get (JObj d) "action" JNull);
       if negb (truthy action) then mret Break
       else
         tool_name ← lift (py_get action "tool" JNull);
         args ← lift (py_get action "args" (JObj []));
         tool_fn ← lift (TOOLS_get tool_name);
         match tool_fn with
         | None => lift (Raise (ValueError_unknown_tool tool_name))
         | Some (name, fn) =>
             '(args, result) ← call_tool name fn args;
             st ← get_state;
             th ← lift (py_get (JObj d) "thought" JNull);
             let o := {| step := steps st + 1; thought := th; tool := name;
                         args := args; result := result |} in
             modify (append_observation o);;
             modify incr_steps;;
             lift (_print_trace o);;
             st ← get_state;
             if _enough_evidence (observations st) then
               modify (set_done true);;
               st ← get_state;
               c ← lift (_summarize st);
               modify (set_conclusion (JStr c));;
               mret Break
             else mret Next
         end) s.
Proof.
  intros Hraw Hloads. unfold iteration.
  erewrite bind_ret by reflexivity.
  erewrite bind_ret by (unfold lift; rewrite Hraw; reflexivity).
  erewrite bind_ret by (unfold lift, _parse_response; rewrite Hloads; reflexivity).
  erewrite bind_ret by reflexivity.
  reflexivity.
Qed.

(** A pass that ends in [break] or in an exception ends the loop: the run
    is then the fallback, or the exception. *)
Lemma run_store_break max_steps s s' :
  loop_condition max_steps (state s) = true →
  iteration s = Some (s', Ret Break) →
  run_store max_steps s = (fallback;; get_state) s'.
Proof.
  intros Hc Hi. unfold run_store.
  erewrite bind_ret by reflexivity.
  destruct (budget_left _ _ Hc) as [n ->].
  erewrite bind_ret; [done|].
  by rewrite loop_pass, Hi.
Qed.

Lemma run_store_raise max_steps s s' e :
  loop_condition max_steps (state s) = true →
  iteration s = Some (s', Raise e) →
  run_store max_steps s = Some (s', Raise e).
Proof.
  intros Hc Hi. unfold run_store.
  erewrite bind_ret by reflexivity.
  destruct (budget_left _ _ Hc) as [n ->].
  erewrite bind_raise; [done|].
  by rewrite loop_pass, Hi.
Qed.

(** The fallback followed by [return state], spelled out. *)
Lemma fallback_return s :
  (fallback;; get_state) s =
    if truthy (conclusion (state s)) then Some (s, Ret (state s))
    else match _summarize (state s) with
         | Ret txt =>
             let s2 := {| state := set_conclusion (JStr txt) (state s);
                          invoked := invoked s |} in
             Some (s2, Ret (state s2))
         | Raise e => Some (s, Raise e)
         end.
Proof.
  unfold fallback, mbind, M_bind, get_state, lift, modify, mret, M_ret.
  destruct (truthy _); simpl; [done|].
  by destruct (_summarize _).
Qed.

(** C3, as amended.  When the answer of the oracle decodes to an object
    whose [done] is truthy, the pass sets [done], stores the supplied
    conclusion (the placeholder when the object has no [conclusion]) and
    breaks, without executing a tool or touching the observations.  The run
    returns that state when the stored conclusion is truthy, so a non-empty
    text; when it is empty or [None] the fallback replaces it with what the
    Summarizer gives for the observations so far, or raises what it raises. *)
Theorem finish_decision_stops (max_steps : Z) (s : Store) (raw : string)
    (d : dict) :
  loop_condition max_steps (state s) = true →
  _reason (state s) = inr raw →
  json_loads raw = Some (JObj d) →
  truthy (default JNull (assoc "done" d)) = true →
  let supplied := default (JStr placeholder) (assoc "conclusion" d) in
  let s1 := {| state := set_conclusion supplied (set_done true (state s));
               invoked := invoked s |} in
  iteration s = Some (s1, Ret Break) ∧
  run_store max_steps s =
    if truthy supplied then Some (s1, Ret (state s1))
    else match _summarize (state s1) with
         | Ret txt =>
             let s2 := {| state := set_conclusion (JStr txt) (state s1);
                          invoked := invoked s |} in
             Some (s2, Ret (state s2))
         | Raise e => Some (s1, Raise e)
         end.
Proof.
  intros Hc Hraw Hloads Hdone supplied s1.
  assert (Hi : iteration s = Some (s1, Ret Break)).
  { rewrite (iteration_decoded s raw d) by done. rewrite Hdone. reflexivity. }
  split; [done|].
  rewrite (run_store_break max_steps s s1) by done.
  rewrite fallback_return. reflexivity.
Qed.

(** [TOOLS.get] finds nothing for a name that is not one of the four keys,
    and for anything hashable that is not a [str]. *)
Lemma TOOLS_get_unknown (name : string) :
  assoc name TOOLS = None → TOOLS_get (JStr name) = Ret None.
Proof. unfold TOOLS_get. by intros ->. Qed.

Lemma iteration_unknown_tool s raw d action :
  _reason (state s) = inr raw →
  json_loads raw = Some (JObj d) →
  truthy (default JNull (assoc "done" d)) = false →
  assoc "action" d = Some (JObj action) →
  action ≠ [] →
  TOOLS_get (default JNull (assoc "tool" action)) = Ret None →
  iteration s =
    Some (s, Raise (ValueError_unknown_tool
                      (default JNull (assoc "tool" action)))).
Proof.
  intros Hraw Hloads Hdone Haction Hne Hget.
  rewrite (iteration_decoded s raw d) by done. rewrite Hdone.
  erewrite bind_ret by (unfold lift, py_get; rewrite Haction; reflexivity).
  destruct action as [|kv action]; [done|]. cbn [truthy negb default from_option id].
  erewrite bind_ret by reflexivity.
  erewrite bind_ret by reflexivity.
  erewrite bind_ret by (unfold lift; rewrite Hget; reflexivity).
  reflexivity.
Qed.

(** C6.  When the answer of the oracle is a continue decision (an object
    whose [done] is not truthy and whose [action] is an object) that names a
    tool which is not a key of [TOOLS], the pass, and with it the run, raises
    [ValueError("Unknown tool requested by agent: ...")] and leaves the store
    as it found it: no tool has been executed in that pass and nothing was
    appended. *)
Theorem unknown_tool_is_fatal (max_steps : Z) (s : Store) (raw : string)
    (d action : dict) (name : string) :
  loop_condition max_steps (state s) = true →
  _reason (state s) = inr raw →
  json_loads raw = Some (JObj d) →
  truthy (default JNull (assoc "done" d)) = false →
  assoc "action" d = Some (JObj action) →
  assoc "tool" action = Some (JStr name) →
  assoc name TOOLS = None →
  iteration s = Some (s, Raise (ValueError_unknown_tool (JStr name))) ∧
  run_store max_steps s =
    Some (s, Raise (ValueError_unknown_tool (JStr name))).
Proof.
  intros Hc Hraw Hloads Hdone Haction Htool Hname.
  assert (Hi : iteration s =
               Some (s, Raise (ValueError_unknown_tool (JStr name)))).
  { rewrite (iteration_unknown_tool s raw d action); try done.
    - by rewrite Htool.
    - by intros ->.
    - rewrite Htool. by apply TOOLS_get_unknown. }
  split; [done|]. by apply run_store_raise.
Qed.

(** C7, as amended.  When [json.loads] rejects the answer of the oracle,
    the run raises [ValueError("Invalid JSON from model: ...")] with the raw
    text and leaves the store as it found it.  When the answer decodes to an
    object that has neither a truthy [done] nor a truthy [action], nothing is
    raised: the pass breaks out of the loop without executing a tool, and the
    run goes on to the fallback and returns. *)
Theorem undecodable_response_is_fatal (max_steps : Z) (s : Store)
    (raw : string) :
  loop_condition max_steps (state s) = true →
  _reason (state s) = inr raw →
  (json_loads raw = None →
   run_store max_steps s = Some (s, Raise (ValueError_invalid_json raw))) ∧
  (∀ d, json_loads raw = Some (JObj d) →
        truthy (default JNull (assoc "done" d)) = false →
        truthy (default JNull (assoc "action" d)) = false →
        iteration s = Some (s, Ret Break) ∧
        run_store max_steps s = (fallback;; get_state) s).
Proof.
  intros Hc Hraw. split.
  - intros Hloads. apply run_store_raise; [done|].
    unfold iteration.
    erewrite bind_ret by reflexivity.
    erewrite bind_ret by (unfold lift; rewrite Hraw; reflexivity).
    erewrite bind_raise; [done|].
    unfold lift, _parse_response. by rewrite Hloads.
  - intros d Hloads Hdone Haction.
    assert (Hi : iteration s = Some (s, Ret Break)).
    { rewrite (iteration_decoded s raw d) by done. rewrite Hdone.
      erewrite bind_ret by reflexivity. by rewrite Haction. }
    split; [done|]. by apply run_store_break.
Qed.

(** *** Where the conclusion comes from *)

Lemma summarize_nonempty st txt : _summarize st = Ret txt → txt ≠ "".
Proof.
  unfold _summarize. destruct (summarize_loop _ _); simpl; [|done].
  by intros [= <-].
Qed.

Lemma truthy_text txt : truthy (JStr txt) = true ↔ txt ≠ "".
Proof.
  simpl. rewrite negb_true_iff. destruct (String.eqb_spec txt ""); naive_solver.
Qed.

Lemma loop_conclusion fuel max_steps s s' :
  loop fuel max_steps s = Some (s', Ret tt) →
  conclusion (state s') = conclusion (state s) ∨
  summary_text (conclusion (state s')) ∨
  supplied_by_oracle (conclusion (state s')).
Proof.
  revert s. induction fuel as [|fuel IH]; intros s.
  - simpl. destruct (loop_condition _ _); [done|]. intros [= <-]. by left.
  - destruct (loop_condition max_steps (state s)) eqn:Hc.
    2: { rewrite loop_stop by done. intros [= <-]. by left. }
    rewrite loop_pass by done.
    destruct (iteration s) as [[s1 [[]|]]|] eqn:Hi; [| |done..].
    + apply iteration_next in Hi as (c & o & -> & _).
      intros Hl. by apply IH in Hl.
    + intros [= <-]. apply iteration_cases in Hi.
      destruct Hi as [[-> _]|[(raw&d&?&?&?&->&_)|[(?&?&_&?)|(c&o&_&_&_&H)]]];
        [by left| |done|].
      * right; right. exists (state s), raw, d. done.
      * destruct H as [(_&?&?)|[(_&?&_)|[(_&_&?&?)|(_&txt&Hsum&->&_)]]];
          [done..|].
        right; left. eexists _, txt. done.
Qed.

(** Where the conclusion of a run that returns comes from: it is truthy,
    and it is a text of the Summarizer, the placeholder or a text of the
    oracle, or else the value, not a text, that a finish decision carried as
    its [conclusion], or the conclusion the state had before the run. *)
Lemma run_conclusion_provenance (max_steps : Z) (s s' : Store)
    (st' : AgentState) :
  run_store max_steps s = Some (s', Ret st') →
  st' = state s' ∧
  truthy (conclusion st') = true ∧
  ((∃ txt, conclusion st' = JStr txt ∧ txt ≠ "") ∨
   (∃ st raw d c,
       _reason st = inr raw ∧ json_loads raw = Some (JObj d) ∧
       truthy (default JNull (assoc "done" d)) = true ∧
       assoc "conclusion" d = Some c ∧ (∀ txt, c ≠ JStr txt) ∧
       conclusion st' = c) ∨
   conclusion st' = conclusion (state s)).
Proof.
  intros (s1 & r1 & Hl & H)%run_store_cases.
  destruct H as [(?&_&_&?)|(->&r2&Hf&H)]; [done|].
  destruct H as [(?&_&?)|(->&[= ->])]; [done|].
  split; [done|].
  apply fallback_cases in Hf
    as [(Ht&->&_)|(_&[(?&_&_&?)|(txt&Hsum&->&_)])]; [|done|].
  - split; [done|].
    destruct (conclusion (state s1)) as [| | | |txt| |] eqn:Hcon;
      try (apply loop_conclusion in Hl as [Hl|[(?&?&_&?)|(st&raw&d&?&?&?&Hd)]];
           [right; right; congruence|congruence|];
           right; left; exists st, raw, d;
           destruct (assoc "conclusion" d) as [c|]; simpl in Hd; [|congruence];
           eexists; split_and!; try done; congruence).
    left. exists txt. by rewrite <-truthy_text.
  - simpl. apply summarize_nonempty in Hsum as Hne.
    split; [by apply truthy_text|]. left. eauto.
Qed.

(** C4.  The code does not keep the claim on the path of a finish
    decision.  [run] stores what the decision carries as [conclusion]
    without looking at its type, and over whatever conclusion the state had;
    when that value is truthy the fallback leaves it alone, and [run] returns
    the state with it: [done] set, nothing executed, nothing observed.  The
    returned conclusion is then a non-empty text exactly when the oracle
    supplied a text; a number, a list or an object is returned as the
    conclusion although the field is declared [str | None]. *)
Theorem finish_conclusion_is_not_validated (max_steps : Z) (s : Store)
    (raw : string) (d : dict) (c : json) :
  loop_condition max_steps (state s) = true →
  _reason (state s) = inr raw →
  json_loads raw = Some (JObj d) →
  truthy (default JNull (assoc "done" d)) = true →
  assoc "conclusion" d = Some c →
  truthy c = true →
  ∃ s',
    run_store max_steps s = Some (s', Ret (state s')) ∧
    conclusion (state s') = c ∧
    done (state s') = true ∧
    goal (state s') = goal (state s) ∧
    service (state s') = service (state s) ∧
    observations (state s') = observations (state s) ∧
    steps (state s') = steps (state s) ∧
    invoked s' = invoked s ∧
    ((∃ txt, conclusion (state s') = JStr txt ∧ txt ≠ "") ↔
     ∃ txt, c = JStr txt).
Proof.
  intros Hc Hraw Hloads Hdone Hcon Htruthy.
  set (s1 := {| state := set_conclusion c (set_done true (state s));
                invoked := invoked s |}).
  assert (Hi : iteration s = Some (s1, Ret Break)).
  { rewrite (iteration_decoded s raw d) by done. rewrite Hdone.
    unfold py_get. rewrite Hcon. reflexivity. }
  exists s1. split_and!; try done.
  - rewrite (run_store_break max_steps s s1) by done.
    rewrite fallback_return. simpl. by rewrite Htruthy.
  - simpl. split.
    + intros (txt & -> & _). eauto.
    + intros (txt & ->). exists txt. split; [done|].
      by apply truthy_text.
Qed.

(** X27.  A run from a state as the dataclass constructs it that returns,
    by whatever way it left the loop, returns the state it was given with a
    truthy conclusion.  The conclusion is a non-empty text unless it is the
    value, not a text, that a finish decision of the oracle carried as its
    [conclusion]. *)
Theorem fresh_run_conclusion (g sv : string) (max_steps : Z) (s' : Store)
    (st' : AgentState) :
  run (new_state g sv) max_steps = Some (s', Ret st') →
  st' = state s' ∧
  truthy (conclusion st') = true ∧
  ((∃ txt, conclusion st' = JStr txt ∧ txt ≠ "") ∨
   (∃ st raw d c,
       _reason st = inr raw ∧ json_loads raw = Some (JObj d) ∧
       truthy (default JNull (assoc "done" d)) = true ∧
       assoc "conclusion" d = Some c ∧ (∀ txt, c ≠ JStr txt) ∧
       conclusion st' = c)).
Proof.
  intros Hrun. unfold run in Hrun.
  apply run_conclusion_provenance in Hrun as (-> & Htruthy & Hfrom).
  split_and!; [done..|].
  destruct Hfrom as [?|[?|Hkept]]; [by left|by right|].
  simpl in Hkept. rewrite Hkept in Htruthy. done.
Qed.

(** *** Running out of budget *)




(** ** Further properties of one pass *)

(** A pass whose decision names a tool of the registry and binds
    [service]: the tool is executed, and what follows depends on what it
    returns, on the trace and on the Evidence Policy. *)
Lemma iteration_executes s raw d action name fn v :
  _reason (state s) = inr raw →
  json_loads raw = Some (JObj d) →
  truthy (default JNull (assoc "done" d)) = false →
  assoc "action" d = Some (JObj action) →
  assoc "tool" action = Some (JStr name) →
  assoc name TOOLS = Some fn →
  assoc "args" action = Some (JObj [("service", v)]) →
  iteration s =
    let calls := (invoked s ++ [{| called := name; with_service := v |}])%list in
    match fn v with
    | Raise e => Some ({| state := state s; invoked := calls |}, Raise e)
    | Ret res =>
        let o := {| step := steps (state s) + 1;
                    thought := default JNull (assoc "thought" d);
                    tool := name; args := [("service", v)]; result := res |} in
        let st2 := incr_steps (append_observation o (state s)) in
        match _print_trace o with
        | Raise e => Some ({| state := st2; invoked := calls |}, Raise e)
        | Ret _ =>
            if _enough_evidence (observations st2) then
              match _summarize (set_done true st2) with
              | Raise e =>
                  Some ({| state := set_done true st2; invoked := calls |},
                        Raise e)
              | Ret txt =>
                  Some ({| state := set_conclusion (JStr txt)
                                      (set_done true st2);
                           invoked := calls |}, Ret Break)
              end
            else Some ({| state := st2; invoked := calls |}, Ret Next)
        end
    end.
Proof.
  intros Hraw Hloads Hdone Haction Htool Hname Hargs.
  rewrite (iteration_decoded s raw d) by done. rewrite Hdone.
  erewrite bind_ret by (unfold lift, py_get; rewrite Haction; reflexivity).
  assert (truthy (JObj action) = true) as Htruthy by by destruct action.
  cbn [default from_option id]. rewrite Htruthy. cbn [negb].
  erewrite bind_ret by (unfold lift, py_get; rewrite Htool; reflexivity).
  erewrite bind_ret by (unfold lift, py_get; rewrite Hargs; reflexivity).
  erewrite bind_ret
    by (unfold lift, TOOLS_get; cbn [default from_option id];
        rewrite Hname; reflexivity).
  cbn [default from_option id].
  unfold call_tool. cbn [String.eqb Ascii.eqb Bool.eqb].
  unfold mbind, M_bind, record_call, lift, get_state, modify, mret, M_ret,
    py_get.
  cbn [fmap option_fmap option_map].
  destruct (fn v) as [res|e]; [|done]. simpl.
  destruct (_print_trace _) as [[]|e]; [|done].
  destruct (_enough_evidence _); [|done].
  by destruct (_summarize _).
Qed.

Lemma iteration_decides s d name fn v :
  decides_to_call s d name fn v →
  iteration s =
    match fn v with
    | Raise e => Some (executed s name v, Raise e)
    | Ret res =>
        let o := observation_of s d name v res in
        match _print_trace o with
        | Raise e => Some (observed s o, Raise e)
        | Ret _ =>
            if _enough_evidence (observations (state s) ++ [o]) then
              match _summarize (set_done true (state (observed s o))) with
              | Raise e =>
                  Some ({| state := set_done true (state (observed s o));
                           invoked := invoked (observed s o) |}, Raise e)
              | Ret txt =>
                  Some ({| state := set_conclusion (JStr txt)
                                      (set_done true (state (observed s o)));
                           invoked := invoked (observed s o) |}, Ret Break)
              end
            else Some (observed s o, Ret Next)
        end
    end.
Proof.
  intros (raw & action & Hraw & Hloads & Hdone & Haction & Htool & Hname & Hargs).
  by rewrite (iteration_executes s raw d action name fn v).
Qed.

(** X14. When the tool a pass executes raises, the run raises the same
    exception: the execution has happened, but no observation was appended and
    no step counted. *)
Theorem tool_failure_is_fatal (max_steps : Z) (s : Store) (d : dict)
    (name : string) (fn : json → outcome dict) (v : json) (e : exn) :
  loop_condition max_steps (state s) = true →
  decides_to_call s d name fn v →
  fn v = Raise e →
  iteration s = Some (executed s name v, Raise e) ∧
  run_store max_steps s = Some (executed s name v, Raise e).
Proof.
  intros Hc Hd Hfn.
  assert (Hi : iteration s = Some (executed s name v, Raise e))
    by by rewrite (iteration_decides s d name fn v), Hfn.
  split; [done|]. by apply run_store_raise.
Qed.

(** X15. When the tool returns, its result is appended as an observation
    numbered [steps + 1] and the step is counted; with a trace that does not
    raise and evidence that is not yet enough, the loop goes on to the next
    pass. *)
Theorem pass_appends_observation (s : Store) (d : dict) (name : string)
    (fn : json → outcome dict) (v : json) (res : dict) :
  decides_to_call s d name fn v →
  fn v = Ret res →
  let o := observation_of s d name v res in
  _print_trace o = Ret tt →
  _enough_evidence (observations (state s) ++ [o]) = false →
  iteration s = Some (observed s o, Ret Next).
Proof.
  intros Hd Hfn o Htrace Hev.
  rewrite (iteration_decides s d name fn v), Hfn by done. simpl.
  fold o. by rewrite Htrace, Hev.
Qed.

(** X16. When printing the trace raises, the run raises with it, after the
    observation was appended and the step counted: the state the caller holds
    has the observation, and no conclusion was added. *)
Theorem trace_failure_keeps_observation (max_steps : Z) (s : Store) (d : dict)
    (name : string) (fn : json → outcome dict) (v : json) (res : dict)
    (e : exn) :
  loop_condition max_steps (state s) = true →
  decides_to_call s d name fn v →
  fn v = Ret res →
  let o := observation_of s d name v res in
  _print_trace o = Raise e →
  iteration s = Some (observed s o, Raise e) ∧
  run_store max_steps s = Some (observed s o, Raise e).
Proof.
  intros Hc Hd Hfn o Htrace.
  assert (Hi : iteration s = Some (observed s o, Raise e)).
  { rewrite (iteration_decides s d name fn v), Hfn by done. simpl.
    fold o. by rewrite Htrace. }
  split; [done|]. by apply run_store_raise.
Qed.


Lemma call_tool_malformed name fn a s :
  (∀ v, a ≠ JObj [("service", v)]) →
  call_tool name fn a s = Some (s, Raise TypeError).
Proof.
  intros Hbad. unfold call_tool.
  destruct a as [| | | | | |[|[k v] [|]]]; try done.
  destruct (String.eqb_spec k "service") as [->|]; [|done].
  by destruct (Hbad v).
Qed.

(** X18. A continue decision for a tool of the registry whose [args] are not
    an object that binds [service] and nothing else (no [args] at all, another
    key, one key too many, no object) raises [TypeError]; the tool is not
    executed. *)
Theorem malformed_arguments_are_fatal (max_steps : Z) (s : Store)
    (raw : string) (d action : dict) (name : string)
    (fn : json → outcome dict) :
  loop_condition max_steps (state s) = true →
  _reason (state s) = inr raw →
  json_loads raw = Some (JObj d) →
  truthy (default JNull (assoc "done" d)) = false →
  assoc "action" d = Some (JObj action) →
  assoc "tool" action = Some (JStr name) →
  assoc name TOOLS = Some fn →
  (∀ v, default (JObj []) (assoc "args" action) ≠ JObj [("service", v)]) →
  iteration s = Some (s, Raise TypeError) ∧
  run_store max_steps s = Some (s, Raise TypeError).
Proof.
  intros Hc Hraw Hloads Hdone Haction Htool Hname Hargs.
  assert (Hi : iteration s = Some (s, Raise TypeError)).
  { rewrite (iteration_decoded s raw d) by done. rewrite Hdone.
    erewrite bind_ret by (unfold lift, py_get; rewrite Haction; reflexivity).
    assert (truthy (JObj action) = true) as Htruthy by by destruct action.
    cbn [default from_option id]. rewrite Htruthy. cbn [negb].
    erewrite bind_ret by (unfold lift, py_get; rewrite Htool; reflexivity).
    erewrite bind_ret by reflexivity.
    erewrite bind_ret
      by (unfold lift, TOOLS_get; cbn [default from_option id];
          rewrite Hname; reflexivity).
    cbn [fmap option_fmap option_map].
    erewrite bind_raise; [done|]. by apply call_tool_malformed. }
  split; [done|]. by apply run_store_raise.
Qed.

(** X21. An answer that is JSON but no object (a list, a text, a number,
    [null]) raises [AttributeError], not the [ValueError] of an undecodable
    answer, and the store is left as it was. *)
Theorem non_object_answer_is_fatal (max_steps : Z) (s : Store) (raw : string)
    (v : json) :
  loop_condition max_steps (state s) = true →
  _reason (state s) = inr raw →
  json_loads raw = Some v →
  (∀ d, v ≠ JObj d) →
  run_store max_steps s = Some (s, Raise AttributeError).
Proof.
  intros Hc Hraw Hloads Hv. apply run_store_raise; [done|].
  unfold iteration.
  erewrite bind_ret by reflexivity.
  erewrite bind_ret by (unfold lift; rewrite Hraw; reflexivity).
  erewrite bind_ret
    by (unfold lift, _parse_response; rewrite Hloads; reflexivity).
  erewrite bind_raise; [done|].
  unfold lift. destruct v as [| | | | | |d]; try done. by destruct (Hv d).
Qed.

(** X22. An exception of the oracle is the exception of the run, and the store
    is left as it was. *)
Theorem oracle_failure_propagates (max_steps : Z) (s : Store) (e : exn) :
  loop_condition max_steps (state s) = true →
  _reason (state s) = inl e →
  run_store max_steps s = Some (s, Raise e).
Proof.
  intros Hc Hraw. apply run_store_raise; [done|].
  unfold iteration.
  erewrite bind_ret by reflexivity.
  erewrite bind_raise; [done|]. unfold lift. by rewrite Hraw.
Qed.

(** X23. On a state that is already done, or whose steps have used up the
    budget, [run] asks no oracle and executes no tool: it returns the state as
    it is when it has a conclusion, and otherwise with the Summarizer's text
    for its observations. *)
Theorem spent_budget_skips_the_loop (max_steps : Z) (s : Store) :
  done (state s) = true ∨ max_steps ≤ steps (state s) →
  run_store max_steps s =
    if truthy (conclusion (state s)) then Some (s, Ret (state s))
    else match _summarize (state s) with
         | Ret txt =>
             let s' := {| state := set_conclusion (JStr txt) (state s);
                          invoked := invoked s |} in
             Some (s', Ret (state s'))
         | Raise e => Some (s, Raise e)
         end.
Proof.
  intros Hspent.
  assert (Hc : loop_condition max_steps (state s) = false).
  { unfold loop_condition. rewrite andb_false_iff, negb_false_iff, Z.ltb_nlt.
    destruct Hspent; [by left|right; lia]. }
  unfold run_store.
  erewrite bind_ret by reflexivity.
  erewrite bind_ret by (by apply loop_stop).
  apply fallback_return.
Qed.

(** X19. A continue decision whose action names no tool, or names it by
    something that is no text: a list or an object cannot be looked up in the
    registry and raises [TypeError]; anything else, [None] for a missing
    [tool] included, is an unknown tool. No tool is executed. *)
Theorem tool_name_not_text_is_fatal (max_steps : Z) (s : Store) (raw : string)
    (d action : dict) :
  loop_condition max_steps (state s) = true →
  _reason (state s) = inr raw →
  json_loads raw = Some (JObj d) →
  truthy (default JNull (assoc "done" d)) = false →
  assoc "action" d = Some (JObj action) →
  action ≠ [] →
  (∀ name, assoc "tool" action ≠ Some (JStr name)) →
  run_store max_steps s =
    Some (s, Raise match default JNull (assoc "tool" action) with
                   | JArr _ | JObj _ => TypeError
                   | tool_name => ValueError_unknown_tool tool_name
                   end).
Proof.
  intros Hc Hraw Hloads Hdone Haction Hne Htool.
  apply run_store_raise; [done|].
  destruct (default JNull (assoc "tool" action)) as [| | | |name| |] eqn:Hname;
    try (rewrite <-Hname; apply (iteration_unknown_tool s raw d action);
         try done; by rewrite Hname).
  - destruct (assoc "tool" action) as [t|] eqn:Ht; simpl in Hname; [|done].
    subst t. by destruct (Htool name).
  - rewrite (iteration_decoded s raw d) by done. rewrite Hdone.
    erewrite bind_ret by (unfold lift, py_get; rewrite Haction; reflexivity).
    destruct action as [|item rest]; [done|].
    cbn [truthy negb default from_option id].
    erewrite bind_ret by reflexivity.
    erewrite bind_ret by reflexivity.
    erewrite bind_raise; [done|]. unfold lift. by rewrite Hname.
  - rewrite (iteration_decoded s raw d) by done. rewrite Hdone.
    erewrite bind_ret by (unfold lift, py_get; rewrite Haction; reflexivity).
    destruct action as [|item rest]; [done|].
    cbn [truthy negb default from_option id].
    erewrite bind_ret by reflexivity.
    erewrite bind_ret by reflexivity.
    erewrite bind_raise; [done|]. unfold lift. by rewrite Hname.
Qed.

(** X20. A continue decision whose action is truthy but no object (a text, a
    number, a list) raises [AttributeError]; no tool is executed. *)
Theorem non_object_action_is_fatal (max_steps : Z) (s : Store) (raw : string)
    (d : dict) (action : json) :
  loop_condition max_steps (state s) = true →
  _reason (state s) = inr raw →
  json_loads raw = Some (JObj d) →
  truthy (default JNull (assoc "done" d)) = false →
  assoc "action" d = Some action →
  truthy action = true →
  (∀ fields, action ≠ JObj fields) →
  run_store max_steps s = Some (s, Raise AttributeError).
Proof.
  intros Hc Hraw Hloads Hdone Haction Htruthy Hshape.
  apply run_store_raise; [done|].
  rewrite (iteration_decoded s raw d) by done. rewrite Hdone.
  erewrite bind_ret by (unfold lift, py_get; rewrite Haction; reflexivity).
  cbn [default from_option id]. rewrite Htruthy. cbn [negb].
  erewrite bind_raise; [done|].
  unfold lift. destruct action as [| | | | | |fields]; try done.
  by destruct (Hshape fields).
Qed.

(** ** Further properties of a run *)

(** A pass that changes the observations is one in which the oracle asked
    for a tool of the registry and the tool returned. *)
Lemma iteration_appended s s' r :
  iteration s = Some (s', r) →
  observations (state s') ≠ observations (state s) →
  ∃ d name fn v res, decides_to_call s d name fn v ∧ fn v = Ret res.
Proof.
  intros H Hneq. unfold iteration in H.
  bind_step H.
  bind_step H; try done.
  bind_step H; try done.
  bind_step H; try done.
  match goal with H : context [_reason ?st] |- _ =>
    destruct (_reason st) eqn:Hraw; simplify_eq end.
  match goal with H : _parse_response ?x = _ |- _ =>
    unfold _parse_response in H;
    destruct (json_loads x) eqn:Hloads; simplify_eq end.
  match goal with H : py_get ?v "done" _ = _ |- _ =>
    destruct v as [| | | | | |d]; simplify_eq/= end.
  destruct (truthy _) eqn:Hdone.
  { do 3 bind_step H. inv_prim H; done. }
  bind_step H.
  destruct (truthy (default JNull (assoc "action" _))) eqn:Haction;
    simpl in H; [|inv_prim H; done].
  bind_step H; try done.
  bind_step H; try done.
  bind_step H; try done.
  match goal with H : context [match ?tf with Some _ => _ | None => _ end] |- _ =>
    destruct tf as [[name fn]|] eqn:Htf; [|inv_prim H; done] end.
  destruct (assoc "action" d) as [[| | | | | |action]|] eqn:Hact;
    cbn [default from_option id py_get] in *; simplify_eq.
  match goal with Ht : TOOLS_get _ = _ |- _ =>
    unfold TOOLS_get in Ht;
    destruct (assoc "tool" action) as [[| | | |name'| |]|] eqn:Htool;
      cbn [default from_option id] in *;
      try (destruct (assoc name' TOOLS) as [fn'|] eqn:Hname;
           cbn [fmap option_fmap option_map] in Ht);
      simplify_eq
  end.
  apply bind_inv in H as [(s1 & [a res] & Hc & H)|(e & Hc & ->)];
    apply call_tool_effect in Hc as [[-> [e' ?]]|(v & Hargs & -> & Hres)];
    simplify_eq.
  destruct (fn v) as [res'|] eqn:Hfn;
    cbn [mbind outcome_bind] in Hres; simplify_eq.
  exists d, name, fn, v, res'. split; [|done].
  eexists _, action. split_and!; try done.
  destruct (assoc "args" action); simpl in Hargs; by simplify_eq.
Qed.

(** What a pass may change: it leaves the goal and the service alone,
    never resets [done], and either keeps the observations and the count of
    steps, executing one tool at most, or appends the record of one
    execution and counts it. *)
Lemma iteration_history s s' r :
  iteration s = Some (s', r) →
  goal (state s') = goal (state s) ∧
  service (state s') = service (state s) ∧
  (done (state s) = true → done (state s') = true) ∧
  ((observations (state s') = observations (state s) ∧
    steps (state s') = steps (state s) ∧
    (invoked s' = invoked s ∨ ∃ c, invoked s' = (invoked s ++ [c])%list) ∧
    ((∃ e, r = Raise e) ∨ r = Ret Break)) ∨
   (∃ o, records_execution o ∧ step o = steps (state s) + 1 ∧
         observations (state s') = (observations (state s) ++ [o])%list ∧
         steps (state s') = steps (state s) + 1 ∧
         invoked s' = (invoked s ++ [call_of o])%list)).
Proof.
  intros H. pose proof (iteration_cases _ _ _ H) as Hcases.
  destruct Hcases
    as [[-> Hr]|[(?&?&?&?&?&->&->)|[(?&?&->&->)|(c&o&Hi&?&?&Hst)]]].
  - split_and!; [done..|]. left. split_and!; [done|done|by left|].
    destruct Hr as [[-> _]|?]; [by right|by left].
  - split_and!; [done..|]. left. split_and!; [done|done|by left|by right].
  - split_and!; [done..|]. left. split_and!; [done|done|eauto|eauto].
  - assert (Hobs : observations (state s') =
                   (observations (state s) ++ [o])%list)
      by (by destruct Hst as [(->&_)|[(->&_)|[(_&->&_)|(_&?&_&->&_)]]]).
    destruct (iteration_appended _ _ _ H)
      as (d & name & fn & v & res & Hd & Hfn).
    { rewrite Hobs. intros Heq. apply (f_equal length) in Heq.
      rewrite length_app in Heq. simpl in Heq. lia. }
    rewrite (iteration_decides s d name fn v Hd), Hfn in H.
    cbv beta iota zeta in H.
    assert (Hrec : records_execution (observation_of s d name v res)).
    { destruct Hd as (?&?&_&_&_&_&_&Hname&_). by exists fn, v. }
    destruct (_print_trace _) as [[]|];
      [destruct (_enough_evidence _); [destruct (_summarize _)|]|];
      injection H as <- <-; (split_and!; [done..|]); right;
      by exists (observation_of s d name v res).
Qed.

Lemma numbered_app (obs : list Observation) (o : Observation) :
  numbered obs → step o = Z.of_nat (length obs) + 1 → numbered (obs ++ [o]).
Proof.
  intros Hn Ho i o' Hi.
  destruct (decide (i < length obs)%nat) as [Hlt|Hge].
  - rewrite lookup_app_l in Hi by done. by apply Hn.
  - rewrite lookup_app_r in Hi by lia.
    destruct (i - length obs)%nat as [|k] eqn:Hk; simpl in Hi; [|done].
    injection Hi as <-. rewrite Ho. f_equal. lia.
Qed.

Lemma iteration_history_ok s s' r :
  history_ok (state s) →
  invoked s = call_of <$> observations (state s) →
  iteration s = Some (s', r) →
  history_ok (state s') ∧
  ((∃ e, r = Raise e) ∨ invoked s' = call_of <$> observations (state s')).
Proof.
  intros (Hn & Hrec & Hlen) Hinv H.
  destruct (iteration_history _ _ _ H) as (_ & _ & _ & Hcases).
  destruct Hcases
    as [(Hobs & Hsteps & Hcalls & Hr)|(o & Ho & Hstep & Hobs & Hsteps & Hcalls)].
  - split; [unfold history_ok; by rewrite Hobs, Hsteps|].
    destruct Hr as [? | ->]; [by left|]. right.
    apply iteration_cases in H.
    destruct H as [[-> _]|[(?&?&?&?&?&->&_)|[(?&?&_&?)|(c&o&_&_&_&H)]]];
      [done|done|done|].
    exfalso.
    assert (observations (state s') =
            (observations (state s) ++ [o])%list) as Happ
      by (by destruct H as [(->&_)|[(->&_)|[(_&->&_)|(_&?&_&->&_)]]]).
    rewrite Hobs in Happ. apply (f_equal length) in Happ.
    rewrite length_app in Happ. simpl in Happ. lia.
  - split.
    + unfold history_ok. rewrite Hobs, Hsteps. split_and!.
      * apply numbered_app; [done|]. by rewrite Hstep, Hlen.
      * apply Forall_app. by split; [|constructor].
      * rewrite length_app. simpl. lia.
    + right. by rewrite Hcalls, Hobs, fmap_app, Hinv.
Qed.

Lemma loop_history_ok fuel max_steps s s' r :
  history_ok (state s) →
  invoked s = call_of <$> observations (state s) →
  loop fuel max_steps s = Some (s', r) →
  history_ok (state s') ∧
  ((∃ e, r = Raise e) ∨ invoked s' = call_of <$> observations (state s')).
Proof.
  revert s. induction fuel as [|fuel IH]; intros s Hs Hinv.
  - simpl. destruct (loop_condition _ _); [done|]. intros [= <- <-]. eauto.
  - destruct (loop_condition max_steps (state s)) eqn:Hc.
    2: { rewrite loop_stop by done. intros [= <- <-]. eauto. }
    rewrite loop_pass by done.
    destruct (iteration s) as [[s1 r1]|] eqn:Hi; [|done].
    destruct (iteration_history_ok _ _ _ Hs Hinv Hi) as [Hs1 Hinv1].
    destruct r1 as [[]|e]; intros Hl; simplify_eq.
    + destruct Hinv1 as [[? ?]|Hinv1]; [done|]. by apply (IH s1).
    + destruct Hinv1 as [[? ?]|Hinv1]; [done|]. eauto.
    + eauto.
Qed.

Lemma loop_frame fuel max_steps s s' r :
  loop fuel max_steps s = Some (s', r) →
  goal (state s') = goal (state s) ∧
  service (state s') = service (state s) ∧
  (done (state s) = true → done (state s') = true) ∧
  observations (state s) `prefix_of` observations (state s') ∧
  invoked s `prefix_of` invoked s' ∧
  steps (state s) ≤ steps (state s').
Proof.
  revert s. induction fuel as [|fuel IH]; intros s.
  - simpl. destruct (loop_condition _ _); [done|]. by intros [= <- <-].
  - destruct (loop_condition max_steps (state s)) eqn:Hc.
    2: { rewrite loop_stop by done. by intros [= <- <-]. }
    rewrite loop_pass by done.
    destruct (iteration s) as [[s1 r1]|] eqn:Hi; [|done].
    assert (Hstep : goal (state s1) = goal (state s) ∧
                    service (state s1) = service (state s) ∧
                    (done (state s) = true → done (state s1) = true) ∧
                    observations (state s) `prefix_of` observations (state s1) ∧
                    invoked s `prefix_of` invoked s1 ∧
                    steps (state s) ≤ steps (state s1)).
    { destruct (iteration_history _ _ _ Hi) as (Hg & Hsv & Hd & Hcases).
      split_and!; [done..| | |].
      - destruct Hcases as [(->&_)|(o&_&_&->&_)];
          [done|by apply prefix_app_r].
      - destruct Hcases as [(_&_&[-> | [c ->]]&_)|(o&_&_&_&_&->)];
          [done|by apply prefix_app_r..].
      - destruct Hcases as [(_&->&_)|(o&_&_&_&->&_)]; lia. }
    destruct r1 as [[]|e]; intros Hl; simplify_eq; [|done..].
    destruct (IH _ Hl) as (Hg & Hsv & Hd & Hobs & Hinv & Hsteps).
    destruct Hstep as (Hg1 & Hsv1 & Hd1 & Hobs1 & Hinv1 & Hsteps1).
    split_and!; [congruence|congruence|auto|by etrans|by etrans|lia].
Qed.

(** X24. Whatever the oracle answers and the tools return, [run] leaves the
    goal and the service of the state alone, only ever appends to the
    observations and to what was executed, never counts steps down and never
    resets [done]. *)
Theorem run_only_appends (max_steps : Z) (s : Store) :
  ∃ s' r,
    run_store max_steps s = Some (s', r) ∧
    goal (state s') = goal (state s) ∧
    service (state s') = service (state s) ∧
    (done (state s) = true → done (state s') = true) ∧
    observations (state s) `prefix_of` observations (state s') ∧
    invoked s `prefix_of` invoked s' ∧
    steps (state s) ≤ steps (state s').
Proof.
  destruct (run_store_total max_steps s) as [[s' r] Hrun].
  exists s', r. split; [done|].
  apply run_store_cases in Hrun as (s1 & r1 & Hl & H).
  apply loop_frame in Hl.
  destruct H as [(?&_&->&_)|(_&r2&Hf&_)]; [done|].
  apply fallback_cases in Hf as [(_&->&_)|(_&[(?&_&->&_)|(?&_&->&_)])]; done.
Qed.

(** X25. In a run from a state as the dataclass constructs it, the
    observations are numbered from 1 in the order they were appended, each
    records the execution of a tool of the registry on the service it was
    asked about with the result the tool returned, and there are as many as
    steps were counted. When the run returns, the tools that were executed are
    exactly those of the observations, in their order. *)
Theorem fresh_run_history (g sv : string) (max_steps : Z) :
  ∃ s' r,
    run (new_state g sv) max_steps = Some (s', r) ∧
    history_ok (state s') ∧
    (∀ st', r = Ret st' → invoked s' = call_of <$> observations (state s')).
Proof.
  unfold run. set (s0 := {| state := new_state g sv; invoked := [] |}).
  destruct (run_store_total max_steps s0) as [[s' r] Hrun].
  exists s', r. split; [done|].
  apply run_store_cases in Hrun as (s1 & r1 & Hl & H).
  apply loop_history_ok in Hl as [Hs1 Hinv1].
  2: { split_and!; [by intros i o|constructor|done]. }
  2: done.
  destruct H as [(e&->&->&->)|(->&r2&Hf&Hr)]; [by split|].
  destruct Hinv1 as [[? ?]|Hinv1]; [done|].
  apply fallback_cases in Hf as [(_&->&_)|(_&[(?&_&->&_)|(?&_&->&_)])]; done.
Qed.

(** X26. Once a pass has left enough evidence, or has set [done], no further
    pass is started: at every head of the loop but the first the evidence is
    not enough and [done] is not set. *)
Theorem loop_goes_on_without_evidence (max_steps : Z) (s0 s : Store) :
  loop_head max_steps s0 s →
  s = s0 ∨
  (_enough_evidence (observations (state s)) = false ∧
   done (state s) = false).
Proof.
  intros Hs. inversion Hs as [|s1 s2 _ Hc Hi]; subst; [by left|right].
  apply loop_condition_true in Hc as [Hdone _].
  apply iteration_next in Hi as (c & o & -> & _ & _ & Hev). done.
Qed.

End ReActAgent.

(** ** The evidence policy *)

Lemma size_tools_used (obs : list Observation) :
  size (tools_used obs) = length (remove_dups (tool <$> obs)).
Proof.
  unfold tools_used.
  rewrite <-(size_list_to_set (C := gset string) (remove_dups (tool <$> obs)))
    by apply NoDup_remove_dups.
  f_equal. apply set_eq. intros x.
  by rewrite !elem_of_list_to_set, elem_of_remove_dups.
Qed.

(** C1.  [_enough_evidence] is true exactly when some observation of the
    history was made with [check_metrics], some with [check_logs], and the
    history names at least three distinct tools; it is false exactly when one
    of the two is missing or fewer than three distinct tools are named,
    however long the history is. *)
Theorem enough_evidence_iff (obs : list Observation) :
  (_enough_evidence obs = true ↔
     "check_metrics" ∈ tool <$> obs ∧
     "check_logs" ∈ tool <$> obs ∧
     (3 ≤ length (remove_dups (tool <$> obs)))%nat) ∧
  (_enough_evidence obs = false ↔
     "check_metrics" ∉ tool <$> obs ∨
     "check_logs" ∉ tool <$> obs ∨
     (length (remove_dups (tool <$> obs)) < 3)%nat).
Proof.
  assert (Ht : _enough_evidence obs = true ↔
     "check_metrics" ∈ tool <$> obs ∧
     "check_logs" ∈ tool <$> obs ∧
     (3 ≤ length (remove_dups (tool <$> obs)))%nat).
  { unfold _enough_evidence.
    rewrite !andb_true_iff, !bool_decide_eq_true, size_tools_used.
    unfold tools_used. rewrite !elem_of_list_to_set. tauto. }
  split; [done|].
  rewrite <-not_true_iff_false, Ht.
  destruct (decide ("check_metrics" ∈ tool <$> obs));
    destruct (decide ("check_logs" ∈ tool <$> obs));
    destruct (decide (3 ≤ length (remove_dups (tool <$> obs)))%nat);
    intuition lia.
Qed.

(** ** The tools on a service without a record *)

(** C8, as amended.  For a service name that has no record in the data of
    the tool, [check_metrics], [check_deployments] and [check_dependencies]
    return [ok: False] with a description of the error, and [check_logs]
    returns [ok: True] with no errors counted; none of them raises. *)
Theorem unknown_service_result (metrics_data logs_data deployments_data
    dependencies_data : dict) (sv : string) :
  (assoc sv metrics_data = None →
   check_metrics metrics_data (JStr sv) =
     Ret [("ok", JBool false); ("error", JStr "Service not found")]) ∧
  (assoc sv deployments_data = None →
   check_deployments deployments_data (JStr sv) =
     Ret [("ok", JBool false); ("error", JStr "No deployment info")]) ∧
  (assoc sv dependencies_data = None →
   check_dependencies dependencies_data (JStr sv) =
     Ret [("ok", JBool false); ("error", JStr "No dependency data")]) ∧
  (assoc sv logs_data = None →
   check_logs logs_data (JStr sv) =
     Ret [("ok", JBool true); ("service", JStr sv);
          ("error_count", JInt 0); ("recent_errors", JArr [])]).
Proof.
  unfold check_metrics, check_deployments, check_dependencies, check_logs.
  split_and!; intros H; simpl; rewrite H; reflexivity.
Qed.

(** ** The summarizer *)

Lemma summarize_loop_app (summary : list string) (pre rest : list Observation) :
  summarize_loop summary (pre ++ rest) =
    summary' ← summarize_loop summary pre; summarize_loop summary' rest.
Proof.
  revert summary. induction pre as [|o pre IH]; intros summary; simpl; [done|].
  destruct (summarize_obs summary o); simpl; [apply IH|done].
Qed.

Lemma summarize_obs_missing_metrics (summary : list string) (o : Observation) :
  tool o = "check_metrics" →
  assoc "metrics" (result o) = None →
  summarize_obs summary o = Raise (KeyError "metrics").
Proof.
  intros Ht Hm. unfold summarize_obs, dict_item. by rewrite Ht, Hm.
Qed.

(** The record [check_metrics] returns for a service it does not know has
    no [metrics]. *)
Lemma check_metrics_not_found (data : dict) (sv : string) (r : dict) :
  assoc sv data = None →
  check_metrics data (JStr sv) = Ret r →
  assoc "metrics" r = None.
Proof.
  intros H. unfold check_metrics. simpl. rewrite H. simpl. by intros [= <-].
Qed.

(** C10, as amended.  For a history that holds a [check_metrics]
    observation whose result has no [metrics], as the record for an unknown
    service has none, [_summarize] returns no text but raises.  Which
    exception is settled by the observations before that one: the
    [KeyError] for [metrics] when they are summarized without an exception,
    and otherwise the exception the first of them to fail raises, which need
    not be a [KeyError].  The fallback of [run] on a state with that history
    and no conclusion raises the same exception and sets no conclusion, and
    so does [run] on such a state once the loop is over. *)
Theorem summarize_fails_on_missing_metrics (st : AgentState)
    (pre post : list Observation) (o : Observation) :
  observations st = (pre ++ o :: post)%list →
  tool o = "check_metrics" →
  assoc "metrics" (result o) = None →
  let e := match summarize_loop [] pre with
           | Ret _ => KeyError "metrics"
           | Raise earlier => earlier
           end in
  _summarize st = Raise e ∧
  (∀ s, state s = st → truthy (conclusion st) = false →
        fallback s = Some (s, Raise e)) ∧
  (∀ json_loads _reason metrics_data logs_data deployments_data
     dependencies_data max_steps s,
     state s = st → truthy (conclusion st) = false →
     loop_condition max_steps st = false →
     run_store json_loads _reason metrics_data logs_data deployments_data
       dependencies_data max_steps s = Some (s, Raise e)).
Proof.
  intros Hobs Ht Hm e.
  assert (Hsum : _summarize st = Raise e).
  { unfold _summarize, e. rewrite Hobs, summarize_loop_app.
    destruct (summarize_loop [] pre) as [summary|earlier]; simpl; [|done].
    by rewrite summarize_obs_missing_metrics. }
  split_and!; [done| |].
  - intros s <- Hc. unfold fallback.
    erewrite bind_ret by reflexivity. rewrite Hc. simpl.
    erewrite bind_raise; [done|]. unfold lift. by rewrite Hsum.
  - intros json_loads _reason metrics_data logs_data deployments_data
      dependencies_data max_steps s <- Hc Hloop.
    unfold run_store.
    erewrite bind_ret by reflexivity.
    erewrite bind_ret by (by apply loop_stop).
    rewrite fallback_return, Hc. by rewrite Hsum.
Qed.

(** C9: what the code returns for the history of the claim.  The clause
    for a degraded dependency has no full stop at its end, unlike the other
    four clauses, so the text differs from the one the specification gives. *)
Theorem summarize_degraded_dependency :
  _summarize degraded_history =
    Ret "Likely root cause: Degraded dependency: payments-api" ∧
  _summarize degraded_history ≠
    Ret "Likely root cause: Degraded dependency: payments-api.".
Proof. split; [reflexivity|discriminate]. Qed.


(** ** The agent on the sample inputs *)

(** The oracle finishes with an empty conclusion: the run returns with
    [done] set, and the conclusion is neither the empty text nor the
    placeholder but the Summarizer's text for no observations. *)
Lemma finish_with_empty_conclusion :
  sample_loads raw_finish_empty =
    Some (JObj [("done", JBool true); ("conclusion", JStr "")]) ∧
  (let s' := returned fresh_store true (JStr "Likely root cause: ") in
   run sample_loads (always raw_finish_empty) [] [] [] []
       (state fresh_store) 6 = Some (s', Ret (state s'))) ∧
  JStr "Likely root cause: " ≠ JStr "" ∧
  JStr "Likely root cause: " ≠ JStr placeholder.
Proof.
  split_and!; [reflexivity|vm_compute; reflexivity|discriminate..].
Qed.

(** The oracle answers [{}], which is JSON but neither a continue nor a
    finish decision: nothing is raised, the loop is left at once and the run
    returns with the fallback conclusion. *)
Lemma empty_object_stops_silently :
  sample_loads raw_empty_object = Some (JObj []) ∧
  (let s' := returned fresh_store false (JStr "Likely root cause: ") in
   run sample_loads (always raw_empty_object) [] [] [] []
       (state fresh_store) 6 = Some (s', Ret (state s'))).
Proof. split; [reflexivity|vm_compute; reflexivity]. Qed.

(** [check_logs] on a service [logs.json] has no record of: [ok] is
    true. *)
Lemma check_logs_unknown_service :
  assoc "checkout-service" sample_logs = None ∧
  check_logs sample_logs (JStr "checkout-service") =
    Ret [("ok", JBool true); ("service", JStr "checkout-service");
         ("error_count", JInt 0); ("recent_errors", JArr [])].
Proof. split; reflexivity. Qed.

(** A run of one pass that asks [check_metrics] about an unknown service
    executes the tool, keeps its record as an observation, and then fails in
    the fallback. *)
Lemma run_on_unknown_service_raises :
  run sample_loads (always (raw_continue "check_metrics")) [] [] [] []
      (state fresh_store) 1 =
    Some (not_found_store, Raise (KeyError "metrics")).
Proof. vm_compute. reflexivity. Qed.




(** A history the loop produces, with the record for an unknown service as
    the result of its second [check_metrics] observation, on which the
    Summarizer raises a [TypeError] and no [KeyError]: the first observation
    gives the CPU load as a text, and comparing it with 80 fails before the
    second observation is looked at. *)
Lemma summarize_raises_type_error :
  run loads_two_services metrics_then_payments metrics_text_cpu [] [] []
      (state fresh_store) 2 =
    Some (text_cpu_store, Raise TypeError) ∧
  observations (state text_cpu_store) =
    [text_cpu_observation; payments_not_found] ∧
  tool payments_not_found = "check_metrics" ∧
  check_metrics metrics_text_cpu (JStr "payments-api") =
    Ret (result payments_not_found) ∧
  assoc "metrics" (result payments_not_found) = None ∧
  _summarize (state text_cpu_store) = Raise TypeError ∧
  ∀ key, TypeError ≠ KeyError key.
Proof.
  split_and!; [vm_compute; reflexivity|reflexivity..|discriminate].
Qed.


(** *** The theorems applied to the sample inputs *)

Lemma step_budget_respected_witness :
  0 ≤ 6 ∧
  ∃ s' r,
    run sample_loads (always (raw_continue "check_metrics"))
        sample_metrics [] [] [] (state fresh_store) 6 = Some (s', r) ∧
    within_budget 6 s'.
Proof.
  split; [lia|].
  apply (step_budget_respected sample_loads
           (always (raw_continue "check_metrics")) sample_metrics [] [] []
           "Service latency is high" "checkout-service" 6).
  lia.
Defined.

Lemma finish_decision_stops_witness :
  let d := [("done", JBool true);
            ("conclusion", JStr "Payments API is degraded.")] in
  loop_condition 6 (state fresh_store) = true ∧
  always raw_finish_text (state fresh_store) = inr raw_finish_text ∧
  sample_loads raw_finish_text = Some (JObj d) ∧
  truthy (default JNull (assoc "done" d)) = true ∧
  (let s' := returned fresh_store true (JStr "Payments API is degraded.") in
   run_store sample_loads (always raw_finish_text) [] [] [] [] 6 fresh_store =
     Some (s', Ret (state s'))).
Proof.
  intros d.
  assert (H1 : loop_condition 6 (state fresh_store) = true) by reflexivity.
  assert (H2 : always raw_finish_text (state fresh_store) = inr raw_finish_text)
    by reflexivity.
  assert (H3 : sample_loads raw_finish_text = Some (JObj d)) by reflexivity.
  assert (H4 : truthy (default JNull (assoc "done" d)) = true) by reflexivity.
  split_and!; [done..|].
  exact (proj2 (finish_decision_stops sample_loads (always raw_finish_text)
                  [] [] [] [] 6 fresh_store raw_finish_text d H1 H2 H3 H4)).
Defined.

Lemma finish_conclusion_is_not_validated_witness :
  sample_loads raw_finish_number =
    Some (JObj [("done", JBool true); ("conclusion", JInt 5)]) ∧
  ∃ s',
    run_store sample_loads (always raw_finish_number) [] [] [] [] 6
        fresh_store = Some (s', Ret (state s')) ∧
    conclusion (state s') = JInt 5 ∧
    ¬ ∃ txt, conclusion (state s') = JStr txt ∧ txt ≠ "".
Proof.
  split; [reflexivity|].
  destruct (finish_conclusion_is_not_validated sample_loads
              (always raw_finish_number) [] [] [] [] 6 fresh_store
              raw_finish_number
              [("done", JBool true); ("conclusion", JInt 5)] (JInt 5)
              eq_refl eq_refl eq_refl eq_refl eq_refl eq_refl)
    as (s' & Hrun & Hcon & _ & _ & _ & _ & _ & _ & Htext).
  exists s'. split_and!; [exact Hrun|exact Hcon|].
  intros H. apply Htext in H as [txt H]. discriminate H.
Defined.

Lemma fresh_run_conclusion_witness :
  let s' := returned fresh_store false (JStr "Likely root cause: ") in
  run sample_loads (always raw_empty_object) [] [] [] []
      (new_state "Service latency is high" "checkout-service") 6 =
    Some (s', Ret (state s')) ∧
  truthy (conclusion (state s')) = true.
Proof.
  intros s'.
  assert (H : run sample_loads (always raw_empty_object) [] [] [] []
                (new_state "Service latency is high" "checkout-service") 6 =
              Some (s', Ret (state s')))
    by (vm_compute; reflexivity).
  split; [exact H|].
  exact (proj1 (proj2 (fresh_run_conclusion sample_loads
                         (always raw_empty_object) [] [] [] []
                         "Service latency is high" "checkout-service" 6
                         s' (state s') H))).
Defined.



Lemma unknown_tool_is_fatal_witness :
  let action := [("tool", JStr "restart_service");
                 ("args", JObj [("service", JStr "checkout-service")])] in
  let d := [("thought", JStr "look"); ("action", JObj action);
            ("done", JBool false)] in
  sample_loads (raw_continue "restart_service") = Some (JObj d) ∧
  assoc "restart_service" (TOOLS [] [] [] []) = None ∧
  run_store sample_loads (always (raw_continue "restart_service")) [] [] [] []
      6 fresh_store =
    Some (fresh_store,
          Raise (ValueError_unknown_tool (JStr "restart_service"))).
Proof.
  intros action d.
  assert (H3 : sample_loads (raw_continue "restart_service") = Some (JObj d))
    by reflexivity.
  assert (H7 : assoc "restart_service" (TOOLS [] [] [] []) = None)
    by reflexivity.
  split_and!; [done..|].
  exact (proj2 (unknown_tool_is_fatal sample_loads
                  (always (raw_continue "restart_service")) [] [] [] [] 6
                  fresh_store (raw_continue "restart_service") d action
                  "restart_service" eq_refl eq_refl H3 eq_refl eq_refl
                  eq_refl H7)).
Defined.

Lemma undecodable_response_is_fatal_witness :
  sample_loads raw_prose = None ∧
  run_store sample_loads (always raw_prose) [] [] [] [] 6 fresh_store =
    Some (fresh_store, Raise (ValueError_invalid_json raw_prose)).
Proof.
  assert (H : sample_loads raw_prose = None) by reflexivity.
  split; [exact H|].
  exact (proj1 (undecodable_response_is_fatal sample_loads (always raw_prose)
                  [] [] [] [] 6 fresh_store raw_prose eq_refl eq_refl) H).
Defined.

Lemma unknown_service_result_witness :
  assoc "checkout-service" sample_logs = None ∧
  check_metrics [] (JStr "checkout-service") =
    Ret [("ok", JBool false); ("error", JStr "Service not found")] ∧
  check_logs sample_logs (JStr "checkout-service") =
    Ret [("ok", JBool true); ("service", JStr "checkout-service");
         ("error_count", JInt 0); ("recent_errors", JArr [])].
Proof.
  pose proof (unknown_service_result [] sample_logs [] [] "checkout-service")
    as (Hm & _ & _ & Hl).
  split_and!; [reflexivity|apply Hm; reflexivity|apply Hl; reflexivity].
Defined.

Lemma summarize_fails_on_missing_metrics_witness :
  observations (state not_found_store) = ([] ++ metrics_not_found 1 :: [])%list ∧
  tool (metrics_not_found 1) = "check_metrics" ∧
  assoc "metrics" (result (metrics_not_found 1)) = None ∧
  _summarize (state not_found_store) = Raise (KeyError "metrics").
Proof.
  split_and!; [reflexivity..|].
  exact (proj1 (summarize_fails_on_missing_metrics (state not_found_store)
                  [] [] (metrics_not_found 1) eq_refl eq_refl eq_refl)).
Defined.

(** ** Further properties of the tools *)

Lemma error_logs_of_filter (entries : list json) :
  Forall has_level entries →
  error_logs_of entries = Ret (List.filter level_is_error entries).
Proof.
  induction 1 as [|entry entries (kv & lvl & -> & Hlvl) _ IH]; [done|].
  simpl. unfold dict_item. rewrite Hlvl, IH. simpl.
  destruct lvl as [| | | |s| |]; try done;
    by destruct (String.eqb s "ERROR").
Qed.

(** X1. [check_logs] on a service whose record is a list of entries that all
    have a level: [error_count] is the number of entries whose level is
    ["ERROR"], [recent_errors] holds the first of them in the order of the
    file, three at most. *)
Theorem check_logs_counts (data : dict) (sv : string) (entries : list json) :
  assoc sv data = Some (JArr entries) →
  Forall has_level entries →
  let errors := List.filter level_is_error entries in
  check_logs data (JStr sv) =
    Ret [("ok", JBool true); ("service", JStr sv);
         ("error_count", JInt (Z.of_nat (length errors)));
         ("recent_errors", JArr (take 3 errors))] ∧
  length (take 3 errors) = Nat.min 3 (length errors).
Proof.
  intros Hdata Hentries errors. split; [|apply length_take].
  unfold check_logs. simpl. rewrite Hdata. simpl.
  by rewrite error_logs_of_filter.
Qed.

(** X2. One entry that cannot be read makes [check_logs] raise, whatever the
    entries after it: [KeyError] for an object without [level], [TypeError]
    for an entry that is no object. *)
Theorem check_logs_unreadable_entry (data : dict) (sv : string)
    (before after : list json) (entry : json) :
  assoc sv data = Some (JArr (before ++ entry :: after)) →
  Forall has_level before →
  check_logs data (JStr sv) =
    match entry with
    | JObj kv =>
        match assoc "level" kv with
        | Some _ =>
            errors ← error_logs_of (entry :: after);
            Ret [("ok", JBool true); ("service", JStr sv);
                 ("error_count",
                  JInt (Z.of_nat (length (List.filter level_is_error before
                                            ++ errors)%list)));
                 ("recent_errors",
                  JArr (take 3 (List.filter level_is_error before
                                  ++ errors)%list))]
        | None => Raise (KeyError "level")
        end
    | _ => Raise TypeError
    end.
Proof.
  intros Hdata Hbefore. unfold check_logs. simpl. rewrite Hdata. simpl.
  assert (Happ : ∀ rest,
            error_logs_of (before ++ rest) =
              errors ← error_logs_of rest;
              Ret (List.filter level_is_error before ++ errors)%list).
  { clear Hdata. intros rest.
    induction Hbefore as [|e es (kv & lvl & -> & Hlvl) _ IH].
    - simpl. by destruct (error_logs_of rest).
    - simpl. unfold dict_item. rewrite Hlvl, IH. simpl.
      destruct (error_logs_of rest) as [errors|]; simpl; [|done].
      destruct lvl as [| | | |s| |]; try done;
        by destruct (String.eqb s "ERROR"). }
  rewrite Happ.
  destruct entry as [| | | | | |kv]; try done.
  simpl. unfold dict_item. destruct (assoc "level" kv) as [lvl|]; [|done].
  simpl. by destruct (error_logs_of after).
Qed.

(** X3. A record that is there but falsy ([{}], [null], [0], the empty text,
    [[]]) counts as no record for [check_metrics], [check_deployments] and
    [check_dependencies]. *)
Theorem falsy_record_is_not_found (data : dict) (sv : string) (record : json) :
  assoc sv data = Some record →
  truthy record = false →
  check_metrics data (JStr sv) = Ret (not_found "Service not found") ∧
  check_deployments data (JStr sv) = Ret (not_found "No deployment info") ∧
  check_dependencies data (JStr sv) = Ret (not_found "No dependency data").
Proof.
  intros Hdata Hfalsy.
  unfold check_metrics, check_deployments, check_dependencies. simpl.
  rewrite Hdata. simpl. by rewrite Hfalsy.
Qed.

Lemma elem_of_degraded_of (health : dict) (name : string) :
  JStr name ∈ degraded_of health ↔
  ∃ status, (name, status) ∈ health ∧ status ≠ JStr "healthy".
Proof.
  unfold degraded_of. rewrite list_elem_of_fmap. split.
  - intros ([n status] & [= ->] & Hin).
    apply list_elem_of_In, filter_In in Hin as [Hin Hst].
    exists status. split; [by apply list_elem_of_In|].
    intros ->. done.
  - intros (status & Hin & Hst). exists (name, status). split; [done|].
    apply list_elem_of_In, filter_In. split; [by apply list_elem_of_In|].
    simpl. destruct status as [| | | |s| |]; try done.
    destruct (String.eqb_spec s "healthy"); [by subst|done].
Qed.

(** X4. [check_dependencies] on a service whose record has both keys it reads:
    the dependencies are passed on as they are, and a name is reported as
    degraded exactly when the health table gives it a status other than the
    text ["healthy"]. *)
Theorem check_dependencies_found (data : dict) (sv : string) (record health : dict)
    (depends_on : json) :
  assoc sv data = Some (JObj record) →
  assoc "dependency_health" record = Some (JObj health) →
  assoc "depends_on" record = Some depends_on →
  check_dependencies data (JStr sv) =
    Ret [("ok", JBool true); ("service", JStr sv);
         ("dependencies", depends_on);
         ("degraded_dependencies", JArr (degraded_of health))] ∧
  ∀ name, JStr name ∈ degraded_of health ↔
          ∃ status, (name, status) ∈ health ∧ status ≠ JStr "healthy".
Proof.
  intros Hdata Hhealth Hdeps. split; [|apply elem_of_degraded_of].
  unfold check_dependencies. simpl. rewrite Hdata. simpl.
  destruct record as [|kv record]; [done|]. simpl.
  unfold dict_item. by rewrite Hhealth, Hdeps.
Qed.

(** X5. [check_dependencies] raises on a record that lacks what it reads:
    [KeyError] for a missing [dependency_health], [AttributeError] when the
    health table is no object, and [KeyError] for a missing [depends_on],
    which is only read after the health table. *)
Theorem check_dependencies_malformed (data : dict) (sv : string) (record : dict) :
  assoc sv data = Some (JObj record) →
  record ≠ [] →
  check_dependencies data (JStr sv) =
    match assoc "dependency_health" record with
    | None => Raise (KeyError "dependency_health")
    | Some (JObj health) =>
        match assoc "depends_on" record with
        | None => Raise (KeyError "depends_on")
        | Some depends_on =>
            Ret [("ok", JBool true); ("service", JStr sv);
                 ("dependencies", depends_on);
                 ("degraded_dependencies", JArr (degraded_of health))]
        end
    | Some _ => Raise AttributeError
    end.
Proof.
  intros Hdata Hne. unfold check_dependencies. simpl. rewrite Hdata.
  assert (truthy (JObj record) = true) as Htruthy by by destruct record.
  cbn [default from_option id]. rewrite Htruthy.
  cbn [negb subscript]. unfold dict_item.
  destruct (assoc "dependency_health" record) as [[| | | | | |health]|];
    try done.
  cbn [mbind outcome_bind]. by destruct (assoc "depends_on" record).
Qed.

(** ** The tools and the summarizer together *)

(** Iterating over a text loses nothing: its characters joined give the
    text back. *)
Lemma concat_chars (s : string) : String.concat "" (chars s) = s.
Proof.
  induction s as [|c rest IH]; [done|].
  simpl. destruct (chars rest) as [|following others] eqn:Hrest.
  - simpl in *. by rewrite <-IH.
  - destruct (continues rest); rewrite <-IH; simpl; [|done].
    by destruct others.
Qed.

Lemma all_str_texts (names : list string) : all_str (JStr <$> names) = Ret names.
Proof. induction names as [|n names IH]; [done|]. csimpl. by rewrite IH. Qed.

Lemma degraded_of_texts (health : dict) :
  ∃ names, degraded_of health = JStr <$> names.
Proof.
  unfold degraded_of.
  exists (fst <$> List.filter
                    (λ p, match p.2 with
                          | JStr s => negb (String.eqb s "healthy")
                          | _ => true
                          end) health).
  by rewrite <-list_fmap_compose.
Qed.

(** X7. What [check_logs] returns is always read without an exception, by the
    trace and by the Summarizer, which reports errors exactly when the count
    is positive. *)
Theorem logs_result_is_summarized (data : dict) (v : json) (r : dict)
    (o : Observation) :
  check_logs data v = Ret r →
  tool o = "check_logs" →
  result o = r →
  _print_trace o = Ret tt ∧
  ∃ n : nat,
    assoc "error_count" r = Some (JInt (Z.of_nat n)) ∧
    ∀ summary,
      summarize_obs summary o =
        Ret (if (0 <? n)%nat
             then (summary ++ ["Application errors found in logs."])%list
             else summary).
Proof.
  unfold check_logs. intros Hr Ht Ho.
  destruct (data_get data v) as [rec|]; [|done]. simpl in Hr.
  destruct (py_iter _) as [items|]; [|done]. simpl in Hr.
  destruct (error_logs_of items) as [errors|]; [|done]. simpl in Hr.
  injection Hr as <-.
  split; [by unfold _print_trace; rewrite Ho|].
  exists (length errors). split; [done|].
  intros summary. unfold summarize_obs. rewrite Ht, Ho. simpl.
  destruct (length errors); done.
Qed.

(** X9. What [check_dependencies] returns is traced without an exception. The
    Summarizer raises [KeyError] on the record for an unknown service, which
    has no [degraded_dependencies]; on any other result it adds one clause
    with the degraded names, joined by a comma and a space, when there are
    any, and nothing when there are none. *)
Theorem dependencies_result_is_summarized (data : dict) (v : json) (r : dict)
    (o : Observation) :
  check_dependencies data v = Ret r →
  tool o = "check_dependencies" →
  result o = r →
  _print_trace o = Ret tt ∧
  ((r = not_found "No dependency data" ∧
    ∀ summary,
      summarize_obs summary o = Raise (KeyError "degraded_dependencies")) ∨
   (∃ names : list string,
      assoc "degraded_dependencies" r = Some (JArr (JStr <$> names)) ∧
      ∀ summary,
        summarize_obs summary o =
          Ret (match names with
               | [] => summary
               | _ => (summary ++ [("Degraded dependency: "
                                     ++ String.concat ", " names)%string])%list
               end))).
Proof.
  unfold check_dependencies. intros Hr Ht Ho.
  destruct (data_get data v) as [rec|]; [|done]. simpl in Hr.
  destruct (truthy (default JNull rec)); simpl in Hr.
  - destruct (subscript _ "dependency_health") as [health|]; [|done].
    simpl in Hr. destruct health as [| | | | | |health]; try done.
    simpl in Hr. destruct (subscript _ "depends_on") as [deps|]; [|done].
    simpl in Hr. injection Hr as <-.
    destruct (degraded_of_texts health) as [names Hnames].
    rewrite Hnames in Ho |- *.
    assert (Hjoin : py_join ", " (JArr (JStr <$> names)) =
                    Ret (String.concat ", " names)).
    { unfold py_join. simpl. by rewrite all_str_texts. }
    split.
    + unfold _print_trace. rewrite Ho. simpl.
      destruct names; [done|]. by rewrite Hjoin.
    + right. exists names. split; [done|].
      intros summary. unfold summarize_obs. rewrite Ht, Ho. simpl.
      destruct names; [done|]. by rewrite Hjoin.
  - injection Hr as <-. split; [by unfold _print_trace; rewrite Ho|].
    left. split; [done|]. intros summary.
    unfold summarize_obs. by rewrite Ht, Ho.
Qed.

(** X8. For whatever [check_deployments] returns, the record for an unknown
    service included, the Summarizer reports a recent deployment. The trace
    reads the [version] of a deployment that was found, and raises when it has
    none. *)
Theorem deployments_result_is_summarized (data : dict) (v : json) (r : dict)
    (o : Observation) :
  check_deployments data v = Ret r →
  tool o = "check_deployments" →
  result o = r →
  (∀ summary,
     summarize_obs summary o =
       Ret (summary ++ ["Recent deployment detected."])%list) ∧
  ((r = not_found "No deployment info" ∧ _print_trace o = Ret tt) ∨
   (∃ deployment,
      assoc "deployment" r = Some deployment ∧ truthy deployment = true ∧
      _print_trace o = (subscript deployment "version";; Ret tt))).
Proof.
  unfold check_deployments. intros Hr Ht Ho.
  split; [by intros summary; unfold summarize_obs; rewrite Ht|].
  destruct (data_get data v) as [rec|]; [|done]. simpl in Hr.
  destruct (truthy (default JNull rec)) eqn:Htruthy; simpl in Hr;
    injection Hr as <-.
  - right. exists (default JNull rec). split_and!; [done..|].
    unfold _print_trace. by rewrite Ho.
  - left. split; [done|]. unfold _print_trace. by rewrite Ho.
Qed.

(** X6. [check_metrics] on a service whose record gives whole numbers for
    [cpu_percent] and [latency_ms]: the result is traced without an exception,
    and the Summarizer reports high CPU exactly above 80 and high latency
    exactly above 500, in this order. *)
Theorem metrics_result_is_summarized (data : dict) (sv : string) (m : dict)
    (cpu latency : Z) (o : Observation) :
  assoc sv data = Some (JObj m) →
  assoc "cpu_percent" m = Some (JInt cpu) →
  assoc "latency_ms" m = Some (JInt latency) →
  tool o = "check_metrics" →
  check_metrics data (JStr sv) = Ret (result o) →
  _print_trace o = Ret tt ∧
  ∀ summary,
    summarize_obs summary o =
      Ret (summary
           ++ (if 80 <? cpu then ["High CPU usage detected."] else [])
           ++ (if 500 <? latency
               then ["High service latency observed."] else []))%list.
Proof.
  intros Hdata Hcpu Hlat Ht. unfold check_metrics. simpl. rewrite Hdata.
  assert (truthy (JObj m) = true) as Htruthy by by destruct m.
  cbn [default from_option id]. rewrite Htruthy. cbn [negb].
  intros [= Hres]. split.
  - unfold _print_trace. rewrite <-Hres. simpl. unfold dict_item.
    by rewrite Hcpu, Hlat.
  - intros summary. unfold summarize_obs. rewrite Ht, <-Hres. simpl.
    unfold dict_item. rewrite Hcpu, Hlat. simpl.
    rewrite !Z.gtb_ltb.
    destruct (80 <? cpu), (500 <? latency); simpl;
      by rewrite <-?app_assoc, ?app_nil_r.
Qed.

(** ** Further properties of the summarizer and of the evidence policy *)

Lemma summarize_obs_acc (summary : list string) (o : Observation) :
  summarize_obs summary o =
    clauses ← summarize_obs [] o; Ret (summary ++ clauses)%list.
Proof.
  unfold summarize_obs, mbind, outcome_bind.
  repeat (case_match; simplify_eq/=; rewrite ?app_nil_r, <-?app_assoc;
          try done).
Qed.

Lemma summarize_loop_acc (summary : list string) (obs : list Observation) :
  summarize_loop summary obs =
    clauses ← summarize_loop [] obs; Ret (summary ++ clauses)%list.
Proof.
  revert summary. induction obs as [|o obs IH]; intros summary; simpl.
  - by rewrite app_nil_r.
  - rewrite (summarize_obs_acc summary).
    destruct (summarize_obs [] o) as [c|]; simpl; [|done].
    rewrite (IH (summary ++ c)%list), (IH c).
    destruct (summarize_loop [] obs); simpl; [|done].
    by rewrite app_assoc.
Qed.

(** X10. The text for a history in two parts is made of the clauses of the
    first part followed by those of the second, each kept as often as it
    occurs; an exception in the first part is the one that is raised. *)
Theorem summarize_concatenates (st : AgentState) (h1 h2 : list Observation) :
  observations st = (h1 ++ h2)%list →
  _summarize st =
    c1 ← summarize_loop [] h1;
    c2 ← summarize_loop [] h2;
    Ret ("Likely root cause: " ++ String.concat " " (c1 ++ c2))%string.
Proof.
  intros Hobs. unfold _summarize. rewrite Hobs, summarize_loop_app.
  destruct (summarize_loop [] h1) as [c1|]; simpl; [|done].
  rewrite summarize_loop_acc. by destruct (summarize_loop [] h2).
Qed.

Lemma tools_used_app (obs more : list Observation) :
  tools_used (obs ++ more) = tools_used obs ∪ tools_used more.
Proof. unfold tools_used. by rewrite fmap_app, list_to_set_app_L. Qed.

(** X11. Once the evidence is enough it stays enough whatever is observed
    later, and it is never enough with fewer than three observations. *)
Theorem enough_evidence_monotone (obs more : list Observation) :
  _enough_evidence obs = true →
  _enough_evidence (obs ++ more) = true ∧ (3 ≤ length obs)%nat.
Proof.
  unfold _enough_evidence.
  rewrite !andb_true_iff, !bool_decide_eq_true. intros [[Hm Hl] Hsize].
  split.
  - rewrite tools_used_app. split_and!; [set_solver..|].
    etrans; [exact Hsize|]. apply subseteq_size. set_solver.
  - rewrite size_tools_used in Hsize.
    etrans; [exact Hsize|].
    rewrite <-(length_fmap tool obs).
    apply submseteq_length, NoDup_submseteq; [apply NoDup_remove_dups|].
    intros t. by rewrite elem_of_remove_dups.
Qed.

(** X12. The policy looks at nothing but which tools occur in the history:
    neither the order of the observations nor repetitions nor the results
    matter. *)
Theorem enough_evidence_same_tools (obs obs' : list Observation) :
  (∀ t, t ∈ tool <$> obs ↔ t ∈ tool <$> obs') →
  _enough_evidence obs = _enough_evidence obs'.
Proof.
  intros Hsame. unfold _enough_evidence.
  replace (tools_used obs') with (tools_used obs); [done|].
  apply set_eq. intros t. unfold tools_used.
  by rewrite !elem_of_list_to_set.
Qed.

(** X13. On a history whose observations were all made with tools of the
    registry, the evidence is enough exactly when the metrics and the logs
    were checked and the deployments or the dependencies as well. *)
Theorem enough_evidence_registry (obs : list Observation) :
  Forall (λ o, tool o ∈ ["check_metrics"; "check_logs"; "check_deployments";
                         "check_dependencies"]) obs →
  _enough_evidence obs = true ↔
    "check_metrics" ∈ tool <$> obs ∧ "check_logs" ∈ tool <$> obs ∧
    ("check_deployments" ∈ tool <$> obs ∨ "check_dependencies" ∈ tool <$> obs).
Proof.
  intros Hreg.
  assert (Hsub : tools_used obs ⊆
                 {["check_metrics"; "check_logs"; "check_deployments";
                   "check_dependencies"]}).
  { intros t. unfold tools_used.
    rewrite elem_of_list_to_set, list_elem_of_fmap. intros (o & -> & Ho).
    rewrite Forall_forall in Hreg. specialize (Hreg o Ho).
    set_solver. }
  unfold _enough_evidence.
  rewrite !andb_true_iff, !bool_decide_eq_true.
  assert (Hin : ∀ t, t ∈ tool <$> obs ↔ t ∈ tools_used obs).
  { intros t. unfold tools_used. by rewrite elem_of_list_to_set. }
  rewrite !Hin. split.
  - intros [[Hm Hl] Hsize]. split_and!; [done..|].
    destruct (decide ("check_deployments" ∈ tools_used obs)); [by left|].
    destruct (decide ("check_dependencies" ∈ tools_used obs)); [by right|].
    exfalso.
    assert (Hle : (size (tools_used obs) ≤
                   size ({["check_metrics"; "check_logs"]} : gset string))%nat).
    { apply subseteq_size. intros t Ht. specialize (Hsub t Ht). set_solver. }
    rewrite size_union, !size_singleton in Hle by set_solver. lia.
  - intros (Hm & Hl & Hthird). split_and!; [done..|].
    destruct Hthird as [Hd|Hd].
    + assert (Hle : (size ({["check_metrics"; "check_logs";
                             "check_deployments"]} : gset string)
                     ≤ size (tools_used obs))%nat).
      { apply subseteq_size. set_solver. }
      rewrite !size_union, !size_singleton in Hle by set_solver. lia.
    + assert (Hle : (size ({["check_metrics"; "check_logs";
                             "check_dependencies"]} : gset string)
                     ≤ size (tools_used obs))%nat).
      { apply subseteq_size. set_solver. }
      rewrite !size_union, !size_singleton in Hle by set_solver. lia.
Qed.

(** ** The further properties applied to the sample inputs *)

Lemma has_level_log_entry (level message : string) :
  has_level (log_entry level message).
Proof. by exists [("level", JStr level); ("message", JStr message)], (JStr level). Qed.

Lemma check_logs_counts_witness :
  assoc "checkout-service" checkout_logs = Some (JArr checkout_entries) ∧
  check_logs checkout_logs (JStr "checkout-service") = Ret logs_result.
Proof.
  assert (Hlevels : Forall has_level checkout_entries)
    by (repeat constructor; apply has_level_log_entry).
  split; [reflexivity|].
  exact (proj1 (check_logs_counts checkout_logs "checkout-service"
                  checkout_entries eq_refl Hlevels)).
Defined.

Lemma check_logs_unreadable_entry_witness :
  check_logs broken_logs (JStr "checkout-service") = Raise (KeyError "level").
Proof.
  assert (Hbefore : Forall has_level [log_entry "ERROR" "payment timeout"])
    by (repeat constructor; apply has_level_log_entry).
  exact (check_logs_unreadable_entry broken_logs "checkout-service"
           [log_entry "ERROR" "payment timeout"]
           [log_entry "INFO" "request served"]
           (JObj [("message", JStr "heartbeat")]) eq_refl Hbefore).
Defined.

Lemma falsy_record_is_not_found_witness :
  assoc "checkout-service" empty_record = Some (JObj []) ∧
  check_metrics empty_record (JStr "checkout-service") =
    Ret (not_found "Service not found") ∧
  check_deployments empty_record (JStr "checkout-service") =
    Ret (not_found "No deployment info") ∧
  check_dependencies empty_record (JStr "checkout-service") =
    Ret (not_found "No dependency data").
Proof.
  split; [reflexivity|].
  exact (falsy_record_is_not_found empty_record "checkout-service" (JObj [])
           eq_refl eq_refl).
Defined.

Lemma check_dependencies_found_witness :
  check_dependencies sample_dependencies (JStr "checkout-service") =
    Ret dependencies_result.
Proof.
  exact (proj1 (check_dependencies_found sample_dependencies "checkout-service"
                  [("depends_on",
                    JArr [JStr "payments-api"; JStr "inventory-db";
                          JStr "pricing-cache"]);
                   ("dependency_health", JObj sample_health)]
                  sample_health
                  (JArr [JStr "payments-api"; JStr "inventory-db";
                         JStr "pricing-cache"])
                  eq_refl eq_refl eq_refl)).
Defined.

Lemma check_dependencies_malformed_witness :
  check_dependencies dependencies_without_health (JStr "checkout-service") =
    Raise (KeyError "dependency_health").
Proof.
  assert (Hne : [("depends_on", JArr [JStr "payments-api"])] ≠ ([] : dict))
    by discriminate.
  exact (check_dependencies_malformed dependencies_without_health
           "checkout-service" [("depends_on", JArr [JStr "payments-api"])]
           eq_refl Hne).
Defined.

Lemma logs_result_is_summarized_witness :
  check_logs checkout_logs (JStr "checkout-service") = Ret logs_result ∧
  _print_trace (observation_from 1 "check_logs" logs_result) = Ret tt.
Proof.
  split; [reflexivity|].
  exact (proj1 (logs_result_is_summarized checkout_logs
                  (JStr "checkout-service") logs_result
                  (observation_from 1 "check_logs" logs_result)
                  eq_refl eq_refl eq_refl)).
Defined.

Lemma dependencies_result_is_summarized_witness :
  check_dependencies sample_dependencies (JStr "checkout-service") =
    Ret dependencies_result ∧
  _print_trace (observation_from 1 "check_dependencies" dependencies_result) =
    Ret tt.
Proof.
  split; [reflexivity|].
  exact (proj1 (dependencies_result_is_summarized sample_dependencies
                  (JStr "checkout-service") dependencies_result
                  (observation_from 1 "check_dependencies" dependencies_result)
                  eq_refl eq_refl eq_refl)).
Defined.

Lemma deployments_result_is_summarized_witness :
  check_deployments sample_deployments (JStr "checkout-service") =
    Ret deployments_result ∧
  ∀ summary,
    summarize_obs summary
      (observation_from 1 "check_deployments" deployments_result) =
      Ret (summary ++ ["Recent deployment detected."])%list.
Proof.
  split; [reflexivity|].
  exact (proj1 (deployments_result_is_summarized sample_deployments
                  (JStr "checkout-service") deployments_result
                  (observation_from 1 "check_deployments" deployments_result)
                  eq_refl eq_refl eq_refl)).
Defined.

Lemma metrics_result_is_summarized_witness :
  check_metrics sample_metrics (JStr "checkout-service") =
    Ret (result (metrics_observation 1)) ∧
  ∀ summary,
    summarize_obs summary (metrics_observation 1) =
      Ret (summary ++ ["High CPU usage detected."] ++ [])%list.
Proof.
  split; [reflexivity|].
  exact (proj2 (metrics_result_is_summarized sample_metrics "checkout-service"
                  [("cpu_percent", JInt 95); ("latency_ms", JInt 200)] 95 200
                  (metrics_observation 1)
                  eq_refl eq_refl eq_refl eq_refl eq_refl)).
Defined.

Lemma summarize_concatenates_witness :
  _summarize (state two_checks_store) =
    Ret ("Likely root cause: Application errors found in logs. "
         ++ "Recent deployment detected.")%string.
Proof.
  exact (summarize_concatenates (state two_checks_store)
           [observation_from 1 "check_logs" logs_result]
           [observation_from 2 "check_deployments" deployments_result]
           eq_refl).
Defined.

Lemma enough_evidence_monotone_witness :
  _enough_evidence three_checks = true ∧
  _enough_evidence (three_checks ++ [metrics_observation 4]) = true.
Proof.
  assert (H : _enough_evidence three_checks = true)
    by (vm_compute; reflexivity).
  split; [exact H|].
  exact (proj1 (enough_evidence_monotone _ [metrics_observation 4] H)).
Defined.

Lemma enough_evidence_same_tools_witness :
  _enough_evidence
    [metrics_observation 1; observation_from 2 "check_logs" logs_result] =
  _enough_evidence
    [observation_from 1 "check_logs" logs_result; metrics_observation 2;
     metrics_observation 3].
Proof.
  apply enough_evidence_same_tools.
  intros t. cbn [fmap list_fmap tool metrics_observation observation_from].
  rewrite !elem_of_cons, !elem_of_nil. tauto.
Defined.

Lemma enough_evidence_registry_witness :
  _enough_evidence three_checks = true ↔
  "check_metrics" ∈ tool <$> three_checks ∧
  "check_logs" ∈ tool <$> three_checks ∧
  ("check_deployments" ∈ tool <$> three_checks ∨
   "check_dependencies" ∈ tool <$> three_checks).
Proof.
  apply enough_evidence_registry.
  repeat constructor.
Defined.

Lemma tool_failure_is_fatal_witness :
  check_logs broken_logs (JStr "checkout-service") = Raise (KeyError "level") ∧
  run_store loads_more (always (raw_continue "check_logs")) [] broken_logs [] []
      6 fresh_store =
    Some (executed fresh_store "check_logs" (JStr "checkout-service"),
          Raise (KeyError "level")).
Proof.
  assert (Hd : decides_to_call loads_more (always (raw_continue "check_logs"))
                 [] broken_logs [] [] fresh_store
                 (continue_fields "check_logs") "check_logs"
                 (check_logs broken_logs) (JStr "checkout-service")).
  { eexists _, _. split_and!; reflexivity. }
  split; [reflexivity|].
  exact (proj2 (tool_failure_is_fatal loads_more
                  (always (raw_continue "check_logs")) [] broken_logs [] [] 6
                  fresh_store (continue_fields "check_logs") "check_logs"
                  (check_logs broken_logs) (JStr "checkout-service")
                  (KeyError "level") eq_refl Hd eq_refl)).
Defined.

Lemma pass_appends_observation_witness :
  iteration sample_loads (always (raw_continue "check_metrics"))
      sample_metrics [] [] [] fresh_store =
    Some (metrics_store 1, Ret Next).
Proof.
  assert (Hd : decides_to_call sample_loads
                 (always (raw_continue "check_metrics"))
                 sample_metrics [] [] [] fresh_store
                 (continue_fields "check_metrics") "check_metrics"
                 (check_metrics sample_metrics) (JStr "checkout-service")).
  { eexists _, _. split_and!; reflexivity. }
  exact (pass_appends_observation sample_loads
           (always (raw_continue "check_metrics")) sample_metrics [] [] []
           fresh_store (continue_fields "check_metrics") "check_metrics"
           (check_metrics sample_metrics) (JStr "checkout-service")
           (result (metrics_observation 1)) Hd eq_refl eq_refl eq_refl).
Defined.

Lemma trace_failure_keeps_observation_witness :
  let res := [("ok", JBool true); ("service", JStr "checkout-service");
              ("metrics", JObj [("latency_ms", JInt 200)])] in
  check_metrics metrics_without_cpu (JStr "checkout-service") = Ret res ∧
  run_store sample_loads (always (raw_continue "check_metrics"))
      metrics_without_cpu [] [] [] 6 fresh_store =
    Some (observed fresh_store (observation_from 1 "check_metrics" res),
          Raise (KeyError "cpu_percent")).
Proof.
  intros res.
  assert (Hd : decides_to_call sample_loads
                 (always (raw_continue "check_metrics"))
                 metrics_without_cpu [] [] [] fresh_store
                 (continue_fields "check_metrics") "check_metrics"
                 (check_metrics metrics_without_cpu)
                 (JStr "checkout-service")).
  { eexists _, _. split_and!; reflexivity. }
  split; [reflexivity|].
  exact (proj2 (trace_failure_keeps_observation sample_loads
                  (always (raw_continue "check_metrics"))
                  metrics_without_cpu [] [] [] 6 fresh_store
                  (continue_fields "check_metrics") "check_metrics"
                  (check_metrics metrics_without_cpu)
                  (JStr "checkout-service") res (KeyError "cpu_percent")
                  eq_refl Hd eq_refl eq_refl)).
Defined.


Lemma malformed_arguments_are_fatal_witness :
  loads_more raw_no_args = Some (JObj no_args_fields) ∧
  run_store loads_more (always raw_no_args) sample_metrics [] [] [] 6
      fresh_store =
    Some (fresh_store, Raise TypeError).
Proof.
  assert (Hargs : ∀ v, default (JObj [])
                         (assoc "args" [("tool", JStr "check_metrics")])
                       ≠ JObj [("service", v)])
    by (intros v; discriminate).
  split; [reflexivity|].
  exact (proj2 (malformed_arguments_are_fatal loads_more (always raw_no_args)
                  sample_metrics [] [] [] 6 fresh_store raw_no_args
                  no_args_fields [("tool", JStr "check_metrics")]
                  "check_metrics" (check_metrics sample_metrics)
                  eq_refl eq_refl eq_refl eq_refl eq_refl eq_refl eq_refl
                  Hargs)).
Defined.

Lemma tool_name_not_text_is_fatal_witness :
  loads_more raw_no_tool = Some (JObj no_tool_fields) ∧
  run_store loads_more (always raw_no_tool) sample_metrics [] [] [] 6
      fresh_store =
    Some (fresh_store, Raise (ValueError_unknown_tool JNull)).
Proof.
  assert (Hne : [("args", JObj [("service", JStr "checkout-service")])]
                ≠ ([] : dict)) by discriminate.
  assert (Htool : ∀ name,
            assoc "tool" [("args", JObj [("service", JStr "checkout-service")])]
            ≠ Some (JStr name)) by (intros name; discriminate).
  split; [reflexivity|].
  exact (tool_name_not_text_is_fatal loads_more (always raw_no_tool)
           sample_metrics [] [] [] 6 fresh_store raw_no_tool no_tool_fields
           [("args", JObj [("service", JStr "checkout-service")])]
           eq_refl eq_refl eq_refl eq_refl eq_refl Hne Htool).
Defined.

Lemma non_object_action_is_fatal_witness :
  loads_more raw_text_action = Some (JObj text_action_fields) ∧
  run_store loads_more (always raw_text_action) sample_metrics [] [] [] 6
      fresh_store =
    Some (fresh_store, Raise AttributeError).
Proof.
  assert (Hshape : ∀ fields : dict, JStr "check_metrics" ≠ JObj fields)
    by (intros fields; discriminate).
  split; [reflexivity|].
  exact (non_object_action_is_fatal loads_more (always raw_text_action)
           sample_metrics [] [] [] 6 fresh_store raw_text_action
           text_action_fields (JStr "check_metrics")
           eq_refl eq_refl eq_refl eq_refl eq_refl eq_refl Hshape).
Defined.

Lemma non_object_answer_is_fatal_witness :
  loads_more raw_list = Some (JArr []) ∧
  run_store loads_more (always raw_list) [] [] [] [] 6 fresh_store =
    Some (fresh_store, Raise AttributeError).
Proof.
  assert (Hv : ∀ d : dict, JArr [] ≠ JObj d) by (intros d; discriminate).
  split; [reflexivity|].
  exact (non_object_answer_is_fatal loads_more (always raw_list) [] [] [] [] 6
           fresh_store raw_list (JArr []) eq_refl eq_refl eq_refl Hv).
Defined.

Lemma oracle_failure_propagates_witness :
  run_store sample_loads failing_oracle [] [] [] [] 6 fresh_store =
    Some (fresh_store, Raise OracleError).
Proof.
  exact (oracle_failure_propagates sample_loads failing_oracle [] [] [] [] 6
           fresh_store OracleError eq_refl eq_refl).
Defined.

Lemma spent_budget_skips_the_loop_witness :
  let s' := returned (metrics_store 2) false
              (JStr ("Likely root cause: High CPU usage detected. "
                     ++ "High CPU usage detected.")) in
  run_store sample_loads failing_oracle [] [] [] [] 2 (metrics_store 2) =
    Some (s', Ret (state s')).
Proof.
  intros s'.
  assert (Hspent : done (state (metrics_store 2)) = true ∨
                   2 ≤ steps (state (metrics_store 2)))
    by (right; simpl; lia).
  exact (spent_budget_skips_the_loop sample_loads failing_oracle [] [] [] [] 2
           (metrics_store 2) Hspent).
Defined.

Lemma loop_goes_on_without_evidence_witness :
  metrics_store 1 = fresh_store ∨
  (_enough_evidence (observations (state (metrics_store 1))) = false ∧
   done (state (metrics_store 1)) = false).
Proof.
  assert (Hhead : loop_head sample_loads
                    (always (raw_continue "check_metrics"))
                    sample_metrics [] [] [] 2 fresh_store (metrics_store 1)).
  { apply (head_next _ _ _ _ _ _ _ _ fresh_store);
      [apply head_first|reflexivity|vm_compute; reflexivity]. }
  exact (loop_goes_on_without_evidence sample_loads
           (always (raw_continue "check_metrics")) sample_metrics [] [] [] 2
           fresh_store (metrics_store 1) Hhead).
Defined.
